(** * LED detector node: capture state machine, region cropping, processing

    Shallow embedding of [LEDDetectorNode]
    (packages/led_detection/src/led_detector_node.py).

    Modelling conventions.
    - Python floats (time stamps, [capture_time], normalized crop bounds) are
      idealised as exact rationals [Q]; [np.floor]/[np.ceil] followed by
      [int()] are [Qfloor]/[Qceiling].
    - A numpy array is its shape together with its indexing function.
    - Every method may raise: methods run in a state-and-exception monad over
      the attributes of [self].  The state reached when an exception
      propagates out of a method is kept, as it is in Python.
    - [LEDDetector] (led_detection/LED_detector.py) is imported by the node
      but its code is not part of the sources at hand: it is an interface,
      and every theorem about the node is stated for an arbitrary instance.
    - A [CompressedImage] is a message whose image decodes;
      [camera_callback] is the callback on such messages.  The callback on
      an arbitrary message, whose decoding may raise, is
      [camera_callback_raw]; the two agree on messages that decode.
    - OpenCV drawing, logging, the wall clock ([t_init], [tic]) and the
      debug image publishers do not influence any attribute modelled here
      and are left out. *)

From Stdlib Require Import ZArith QArith Qround List Ascii String Bool Lia Lqa.
Import ListNotations.

Set Implicit Arguments.

Local Open Scope Z_scope.

(** ** Exceptions and results *)

Inductive exn : Set :=
| IndexError
| ValueError
| ZeroDivisionError
| ConfigurationError
| InputError.

Inductive result (A : Type) : Type :=
| Ok (a : A)
| Raise (e : exn).

Arguments Ok {A} a.
Arguments Raise {A} e.

Definition result_bind {A B} (r : result A) (k : A -> result B) : result B :=
  match r with
  | Ok a => k a
  | Raise e => Raise e
  end.

(** ** Rational comparisons as executed by [<] and [>] *)

Definition Qltb (x y : Q) : bool := negb (Qle_bool y x).

(** ** numpy arrays *)

Record ndarray2 : Type := {
  shape2 : nat * nat;
  at2 : nat -> nat -> Z
}.

Record ndarray3 : Type := {
  shape3 : nat * nat * nat;
  at3 : nat -> nat -> nat -> Z
}.

(** [255 - rgb] on an array of unsigned 8-bit samples. *)
Definition invert_uint8 (a : ndarray2) : ndarray2 :=
  {| shape2 := shape2 a;
     at2 := fun i j => (255 - at2 a i j) mod 256 |}.

(** Index adjustment of a slice [start:stop] with step 1 on an axis of
    length [len]: a negative index counts from the end, and indices beyond
    either end are clamped. *)
Definition adjust_index (len i : Z) : Z :=
  if i <? 0 then Z.max 0 (i + len) else Z.min i len.

(** First selected index and number of selected indices of [start:stop]. *)
Definition slice_indices (len : nat) (start stop : Z) : nat * nat :=
  let a := adjust_index (Z.of_nat len) start in
  let b := adjust_index (Z.of_nat len) stop in
  (Z.to_nat a, Z.to_nat (b - a)).

(** [images[h_start:h_end, w_start:w_end, :]] *)
Definition slice3 (images : ndarray3) (h_start h_end w_start w_end : Z)
  : ndarray3 :=
  let '(height, width, depth) := shape3 images in
  let '(r0, rows) := slice_indices height h_start h_end in
  let '(c0, cols) := slice_indices width w_start w_end in
  {| shape3 := (rows, cols, depth);
     at3 := fun i j k => at3 images (r0 + i)%nat (c0 + j)%nat k |}.

(** ** Region cropping *)

(** A normalized box [[h0, h1], [w0, w1]]. *)
Definition crop_norm : Set := ((Q * Q) * (Q * Q))%type.

Definition crop_h_start (height : nat) (c : crop_norm) : Z :=
  Qfloor (inject_Z (Z.of_nat height) * fst (fst c)).
Definition crop_h_end (height : nat) (c : crop_norm) : Z :=
  Qceiling (inject_Z (Z.of_nat height) * snd (fst c)).
Definition crop_w_start (width : nat) (c : crop_norm) : Z :=
  Qfloor (inject_Z (Z.of_nat width) * fst (snd c)).
Definition crop_w_end (width : nat) (c : crop_norm) : Z :=
  Qceiling (inject_Z (Z.of_nat width) * snd (snd c)).

Definition crop_image (images : ndarray3) (c : crop_norm) : result ndarray3 :=
  let '(height, width, _) := shape3 images in
  let h_start := crop_h_start height c in
  let h_end := crop_h_end height c in
  let w_start := crop_w_start width c in
  let w_end := crop_w_end width c in
  let image_cropped := slice3 images h_start h_end w_start w_end in
  Ok image_cropped.

(** ** Messages *)

Module duckietown_msgs.

(** [SignalsDetection]: one symbol per observed side; a field left unset in
    Python is [None]. *)
Record SignalsDetection : Type := {
  front : option string;
  right : option string;
  left : option string;
  traffic_light_state : option string
}.

End duckietown_msgs.

(** A camera message: the header stamp in seconds ([stamp.to_sec()]) and the
    decoded single-channel image
    ([cv2.cvtColor(numpy_from_ros_compressed(msg), COLOR_BGRA2GRAY)]). *)
Record CompressedImage : Type := {
  stamp : Q;
  gray : ndarray2
}.

(** ** Configuration: the entries of [self.parameters] read by the node *)

Record CropParams : Set := {
  cropNormalizedRight : crop_norm;
  cropNormalizedFront : crop_norm;
  cropNormalizedTL : crop_norm
}.

Record Parameters : Set := {
  capture_time : Q;
  DTOL : Q;
  verbose : Z;
  crop_params : CropParams
}.

(** ** The detector interface used by the node *)

Class LEDDetector : Type := {
  blobs : Type;
  keypoints : Type;
  frame : Type;
  find_blobs : ndarray3 -> string -> result (blobs * frame);
  get_keypoints : blobs -> Q -> result keypoints;
  interpret_signal : blobs -> Q -> nat -> result (option string)
}.

(** ** Attributes of the node *)

(** An element of [self.data]: [{'timestamp': ..., 'rgb': ...}]. *)
Record Frame : Type := {
  timestamp : Q;
  rgb : ndarray2
}.

Record State : Type := {
  first_timestamp : Q;
  capture_finished : bool;
  trigger : bool;
  node_state : Z;
  data : list Frame;
  right : option string;
  front : option string;
  traffic_light : option string;
  left : option string;
  (** whether the subscription [sub_cam] is registered *)
  sub_cam : bool;
  (** messages handed to [pub_detections], oldest first *)
  pub_detections : list duckietown_msgs.SignalsDetection
}.

Definition UNKNOWN : string := "UNKNOWN".

(** [__init__] *)
Definition init : State :=
  {| first_timestamp := 0;
     capture_finished := true;
     trigger := true;
     node_state := 0;
     data := [];
     right := None;
     front := None;
     traffic_light := None;
     left := Some UNKNOWN;
     sub_cam := true;
     pub_detections := [] |}.

Definition set_first_timestamp (v : Q) (s : State) : State :=
  {| first_timestamp := v; capture_finished := capture_finished s;
     trigger := trigger s; node_state := node_state s; data := data s;
     right := right s; front := front s; traffic_light := traffic_light s;
     left := left s; sub_cam := sub_cam s;
     pub_detections := pub_detections s |}.

Definition set_capture_finished (v : bool) (s : State) : State :=
  {| first_timestamp := first_timestamp s; capture_finished := v;
     trigger := trigger s; node_state := node_state s; data := data s;
     right := right s; front := front s; traffic_light := traffic_light s;
     left := left s; sub_cam := sub_cam s;
     pub_detections := pub_detections s |}.

Definition set_trigger (v : bool) (s : State) : State :=
  {| first_timestamp := first_timestamp s;
     capture_finished := capture_finished s;
     trigger := v; node_state := node_state s; data := data s;
     right := right s; front := front s; traffic_light := traffic_light s;
     left := left s; sub_cam := sub_cam s;
     pub_detections := pub_detections s |}.

Definition set_node_state (v : Z) (s : State) : State :=
  {| first_timestamp := first_timestamp s;
     capture_finished := capture_finished s;
     trigger := trigger s; node_state := v; data := data s;
     right := right s; front := front s; traffic_light := traffic_light s;
     left := left s; sub_cam := sub_cam s;
     pub_detections := pub_detections s |}.

Definition set_data (v : list Frame) (s : State) : State :=
  {| first_timestamp := first_timestamp s;
     capture_finished := capture_finished s;
     trigger := trigger s; node_state := node_state s; data := v;
     right := right s; front := front s; traffic_light := traffic_light s;
     left := left s; sub_cam := sub_cam s;
     pub_detections := pub_detections s |}.

Definition set_right (v : option string) (s : State) : State :=
  {| first_timestamp := first_timestamp s;
     capture_finished := capture_finished s;
     trigger := trigger s; node_state := node_state s; data := data s;
     right := v; front := front s; traffic_light := traffic_light s;
     left := left s; sub_cam := sub_cam s;
     pub_detections := pub_detections s |}.

Definition set_front (v : option string) (s : State) : State :=
  {| first_timestamp := first_timestamp s;
     capture_finished := capture_finished s;
     trigger := trigger s; node_state := node_state s; data := data s;
     right := right s; front := v; traffic_light := traffic_light s;
     left := left s; sub_cam := sub_cam s;
     pub_detections := pub_detections s |}.

Definition set_traffic_light (v : option string) (s : State) : State :=
  {| first_timestamp := first_timestamp s;
     capture_finished := capture_finished s;
     trigger := trigger s; node_state := node_state s; data := data s;
     right := right s; front := front s; traffic_light := v;
     left := left s; sub_cam := sub_cam s;
     pub_detections := pub_detections s |}.

Definition set_left (v : option string) (s : State) : State :=
  {| first_timestamp := first_timestamp s;
     capture_finished := capture_finished s;
     trigger := trigger s; node_state := node_state s; data := data s;
     right := right s; front := front s; traffic_light := traffic_light s;
     left := v; sub_cam := sub_cam s;
     pub_detections := pub_detections s |}.

Definition set_sub_cam (v : bool) (s : State) : State :=
  {| first_timestamp := first_timestamp s;
     capture_finished := capture_finished s;
     trigger := trigger s; node_state := node_state s; data := data s;
     right := right s; front := front s; traffic_light := traffic_light s;
     left := left s; sub_cam := v;
     pub_detections := pub_detections s |}.

Definition set_pub_detections (v : list duckietown_msgs.SignalsDetection)
  (s : State) : State :=
  {| first_timestamp := first_timestamp s;
     capture_finished := capture_finished s;
     trigger := trigger s; node_state := node_state s; data := data s;
     right := right s; front := front s; traffic_light := traffic_light s;
     left := left s; sub_cam := sub_cam s;
     pub_detections := v |}.

(** ** The monad of methods: attributes of [self] and exceptions *)

Definition M (A : Type) : Type := State -> result A * State.

Definition ret {A} (a : A) : M A := fun s => (Ok a, s).

Definition bind {A B} (m : M A) (k : A -> M B) : M B :=
  fun s =>
    match m s with
    | (Ok a, s') => k a s'
    | (Raise e, s') => (Raise e, s')
    end.

Definition lift {A} (r : result A) : M A := fun s => (r, s).

Definition get : M State := fun s => (Ok s, s).

Definition modify (f : State -> State) : M unit := fun s => (Ok tt, f s).

Declare Scope method_scope.
Delimit Scope method_scope with method.
Notation "x <- c ;; k" := (bind c (fun x => k))
  (at level 61, c at next level, right associativity) : method_scope.
Notation "c ;; k" := (bind c (fun _ => k))
  (at level 61, right associativity) : method_scope.

(** ** Stacking the captured frames *)

(** Whether a 2-D array can be assigned to an [h] x [w] plane (numpy
    broadcasting: each axis has the target length or length 1). *)
Definition broadcastable (h w : nat) (a : ndarray2) : bool :=
  let '(h', w') := shape2 a in
  ((h' =? h)%nat || (h' =? 1)%nat) && ((w' =? w)%nat || (w' =? 1)%nat).

Definition broadcast_at (h w : nat) (a : ndarray2) (i j : nat) : Z :=
  let '(h', w') := shape2 a in
  at2 a (if (h' =? h)%nat then i else 0%nat) (if (w' =? w)%nat then j else 0%nat).

(** [images[:, :, i] = v] *)
Definition set_plane (h w : nat) (images : ndarray3) (i : nat) (v : ndarray2)
  : result ndarray3 :=
  if broadcastable h w v then
    Ok {| shape3 := shape3 images;
          at3 := fun r c k =>
                   if (k =? i)%nat then broadcast_at h w v r c
                   else at3 images r c k |}
  else Raise ValueError.

(** [for i, v in enumerate(self.data): images[:, :, i] = v['rgb']], from
    index [i] on. *)
Fixpoint fill_images (h w : nat) (vs : list Frame) (i : nat)
  (images : ndarray3) : result ndarray3 :=
  match vs with
  | [] => Ok images
  | v :: vs' =>
      result_bind (set_plane h w images i (rgb v))
                  (fill_images h w vs' (S i))
  end.

(** [np.zeros((h, w, num_img), dtype=np.uint8)] *)
Definition zeros3 (h w num_img : nat) : ndarray3 :=
  {| shape3 := (h, w, num_img); at3 := fun _ _ _ => 0 |}.

(** [self.data[0]] *)
Definition first_frame (d : list Frame) : result Frame :=
  match nth_error d 0 with
  | Some v => Ok v
  | None => Raise IndexError
  end.

(** [img[:, :, -1]] *)
Definition last_plane (img : ndarray3) : result ndarray2 :=
  let '(h, w, depth) := shape3 img in
  match depth with
  | O => Raise IndexError
  | S k => Ok {| shape2 := (h, w); at2 := fun i j => at3 img i j k |}
  end.

(** [(1.0 * capture_time) / (1.0 * num_img)] *)
Definition sampling_time (capture_time : Q) (num_img : nat) : result Q :=
  let n := (1 * inject_Z (Z.of_nat num_img))%Q in
  if Qeq_bool n 0 then Raise ZeroDivisionError
  else Ok ((1 * capture_time) / n)%Q.

(** ** Methods of the node *)

Section Node.

Context {detector : LEDDetector}.
Variable parameters : Parameters.

Local Open Scope method_scope.

(** The stacked volume built at the start of [process_and_publish]. *)
Definition stack_images (d : list Frame) : result ndarray3 :=
  result_bind (first_frame d) (fun v0 =>
  let '(h, w) := shape2 (rgb v0) in
  let num_img := List.length d in
  fill_images h w d 0 (zeros3 h w num_img)).

(** Crops and blob extraction of [process_and_publish], up to the debug
    images.  This part reads [self.data] and the parameters and assigns no
    attribute. *)
Definition extract_blobs (d : list Frame) : result (blobs * blobs * blobs) :=
  result_bind (stack_images d) (fun images =>
  result_bind (crop_image images
                 (cropNormalizedRight (crop_params parameters)))
    (fun img_right =>
  result_bind (crop_image images
                 (cropNormalizedFront (crop_params parameters)))
    (fun img_front =>
  result_bind (crop_image images
                 (cropNormalizedTL (crop_params parameters)))
    (fun img_tl =>
  result_bind (find_blobs img_right "car") (fun '(blobs_right, _) =>
  result_bind (find_blobs img_front "car") (fun '(blobs_front, _) =>
  result_bind (find_blobs img_tl "tl") (fun '(blobs_tl, _) =>
  let radius := (DTOL parameters / 2)%Q in
  result_bind
    (if 0 <? verbose parameters then
       result_bind (get_keypoints blobs_right radius) (fun _ =>
       result_bind (get_keypoints blobs_front radius) (fun _ =>
       result_bind (get_keypoints blobs_tl radius) (fun _ =>
       result_bind (last_plane img_right) (fun _ =>
       result_bind (last_plane img_front) (fun _ =>
       result_bind (last_plane img_tl) (fun _ => Ok tt))))))
     else Ok tt)
    (fun _ => Ok (blobs_right, blobs_front, blobs_tl))))))))).

Definition publish : M unit :=
  s <- get ;;
  let detections_msg :=
    {| duckietown_msgs.front := front s;
       duckietown_msgs.right := right s;
       duckietown_msgs.left := left s;
       duckietown_msgs.traffic_light_state := traffic_light s |} in
  modify (set_pub_detections (pub_detections s ++ [detections_msg])).

Definition process_and_publish : M unit :=
  s <- get ;;
  let num_img := List.length (data s) in
  b <- lift (extract_blobs (data s)) ;;
  let '(blobs_right, blobs_front, blobs_tl) := b in
  modify (set_right None) ;;
  modify (set_front None) ;;
  modify (set_traffic_light None) ;;
  t_s <- lift (sampling_time (capture_time parameters) num_img) ;;
  r <- lift (interpret_signal blobs_right t_s num_img) ;;
  modify (set_right r) ;;
  f <- lift (interpret_signal blobs_front t_s num_img) ;;
  modify (set_front f) ;;
  t <- lift (interpret_signal blobs_tl t_s num_img) ;;
  modify (set_traffic_light t) ;;
  modify (set_left (Some UNKNOWN)) ;;
  publish ;;
  modify (set_trigger true) ;;
  modify (set_sub_cam true).

(** The assignments that precede the call of [process_and_publish] in
    [camera_callback], the last one being [self.sub_cam.unregister()]. *)
Definition start_processing (s : State) : State :=
  set_sub_cam false
    (set_first_timestamp 0
       (set_capture_finished true (set_node_state 2 s))).

(** The first [if]/[elif] of [camera_callback]. *)
Definition arm (msg : CompressedImage) (s : State) : State :=
  if trigger s then
    set_first_timestamp (stamp msg)
      (set_capture_finished false (set_data [] (set_trigger false s)))
  else if capture_finished s then set_node_state 0 s
  else s.

Definition capture (msg : CompressedImage) (s : State) : State :=
  let float_time := stamp msg in
  let rgb := invert_uint8 (gray msg) in
  set_data (data s ++ [{| timestamp := float_time; rgb := rgb |}])
    (set_node_state 1 s).

Definition camera_callback (msg : CompressedImage) : M unit :=
  let float_time := stamp msg in
  modify (arm msg) ;;
  s <- get ;;
  if Qltb 0 (first_timestamp s) then
    let rel_time := (float_time - first_timestamp s)%Q in
    if Qltb rel_time (capture_time parameters) then
      modify (capture msg)
    else if negb (capture_finished s) && Qltb 0 (first_timestamp s) then
      modify start_processing ;;
      process_and_publish
    else ret tt
  else ret tt.

(** The middleware delivers a message to the callback of a registered
    subscription only. *)
Definition deliver (msg : CompressedImage) : M unit :=
  s <- get ;;
  if sub_cam s then camera_callback msg else ret tt.

(** The attributes after a sequence of deliveries.  An exception raised
    in a callback is reported by the middleware and the node goes on. *)
Definition run (msgs : list CompressedImage) (s : State) : State :=
  fold_left (fun s msg => snd (deliver msg s)) msgs s.

End Node.


(** ** Predicates used in the statements *)

(** A normalized box lies within the unit square. *)
Definition normalized (c : crop_norm) : Prop :=
  (0 <= fst (fst c) <= 1)%Q /\ (0 <= snd (fst c) <= 1)%Q /\
  (0 <= fst (snd c) <= 1)%Q /\ (0 <= snd (snd c) <= 1)%Q.

(** The element appended to [self.data] for a message. *)
Definition captured_frame (msg : CompressedImage) : Frame :=
  {| timestamp := stamp msg; rgb := invert_uint8 (gray msg) |}.

(** The attributes while [process_and_publish] runs: the flags are those
    assigned by [camera_callback] just before the call, and [trigger] was
    cleared when the window was opened. *)
Definition processing (s : State) : Prop :=
  sub_cam s = false /\ trigger s = false /\
  capture_finished s = true /\ first_timestamp s = 0%Q.


(** The attributes after a run of [process_and_publish] that returns, with
    [r], [f] and [t] the symbols of right, front and traffic light. *)
Definition completed (s : State) (r f t : option string) : State :=
  {| first_timestamp := first_timestamp s;
     capture_finished := capture_finished s;
     trigger := true;
     node_state := node_state s;
     data := data s;
     right := r;
     front := f;
     traffic_light := t;
     left := Some UNKNOWN;
     sub_cam := true;
     pub_detections :=
       pub_detections s ++
       [{| duckietown_msgs.front := f;
           duckietown_msgs.right := r;
           duckietown_msgs.left := Some UNKNOWN;
           duckietown_msgs.traffic_light_state := t |}] |}.

(** Relations between the flags that hold in every state the node reaches:
    the subscription is registered whenever the node is armed or capturing,
    and [first_timestamp] is not positive once a capture has finished. *)
Definition node_inv (s : State) : Prop :=
  (trigger s = true -> sub_cam s = true) /\
  (trigger s = false -> capture_finished s = false -> sub_cam s = true) /\
  (capture_finished s = true -> Qltb 0 (first_timestamp s) = false).

(** While a window is being captured it holds at least one frame. *)
Definition window_inv (s : State) : Prop :=
  trigger s = false -> capture_finished s = false ->
  data s <> [] /\ Qltb 0 (first_timestamp s) = true.

(** The outcome of the classification of three regions. *)
Definition classify_regions {detector : LEDDetector}
  (b : blobs * blobs * blobs) (t_s : Q) (num_img : nat) : result unit :=
  let '(blobs_right, blobs_front, blobs_tl) := b in
  result_bind (interpret_signal blobs_right t_s num_img) (fun _ =>
  result_bind (interpret_signal blobs_front t_s num_img) (fun _ =>
  result_bind (interpret_signal blobs_tl t_s num_img) (fun _ => Ok tt))).

(** The published [left] field is the constant. *)
Definition left_unknown (d : duckietown_msgs.SignalsDetection) : Prop :=
  duckietown_msgs.left d = Some UNKNOWN.

(** ** The guards of the signal classifier *)

Record ProtocolEntry : Set := {
  frequency : Q;
  tolerance : Q;
  symbol : string
}.

Definition highest_frequency (table : list ProtocolEntry) : Q :=
  fold_right (fun e m => if Qltb m (frequency e) then frequency e else m)
             0%Q table.

(** Modelled from the spec: the guards of [LEDDetector.interpret_signal]
    (led_detection/LED_detector.py, which the node imports, is missing from
    the sources).  With fewer than 2 frames the classifier reports unknown;
    the number of captured frames must exceed twice the highest protocol
    frequency times [capture_time], and when it does not the result is
    forced to unknown.  Track association, spectrum and symbol matching are
    the argument [classify]. *)
Definition guarded_interpret_signal (B : Type) (table : list ProtocolEntry)
  (capture_time : Q) (classify : B -> Q -> nat -> result (option string))
  (b : B) (t_s : Q) (num_img : nat) : result (option string) :=
  if (num_img <? 2)%nat then Ok (Some UNKNOWN)
  else if Qltb (2 * highest_frequency table * capture_time)
               (inject_Z (Z.of_nat num_img))
       then classify b t_s num_img
       else Ok (Some UNKNOWN).

(** Modelled from the spec: a detector whose classifier applies the guards
    above; blob extraction is that of [det]. *)
Definition guarded_detector (table : list ProtocolEntry) (capture_time : Q)
  (det : LEDDetector) : LEDDetector :=
  {| blobs := @blobs det;
     keypoints := @keypoints det;
     frame := @frame det;
     find_blobs := @find_blobs det;
     get_keypoints := @get_keypoints det;
     interpret_signal :=
       guarded_interpret_signal table capture_time (@interpret_signal det) |}.

(** ** Sample inputs *)

Module Sample.

(** A detector that reports the depth of the volume as its blobs and
    classifies everything as one symbol. *)
Definition detector : LEDDetector :=
  {| blobs := nat;
     keypoints := nat;
     frame := unit;
     find_blobs := fun img _ => Ok (snd (shape3 img), tt);
     get_keypoints := fun b _ => Ok b;
     interpret_signal := fun _ _ _ => Ok (Some "CAR_SIGNAL_A"%string) |}.

Definition image (h w : nat) (v : Z) : ndarray2 :=
  {| shape2 := (h, w); at2 := fun _ _ => v |}.

Definition volume (h w d : nat) : ndarray3 :=
  {| shape3 := (h, w, d);
     at3 := fun i j k => Z.of_nat (100 * i + 10 * j + k) |}.

Definition message (t : Q) (v : Z) : CompressedImage :=
  {| stamp := t; gray := image 4 4 v |}.

Definition crops : CropParams :=
  {| cropNormalizedRight := ((1 # 5, 3 # 5), (1 # 2, 1))%Q;
     cropNormalizedFront := ((1 # 10, 1 # 2), (1 # 8, 7 # 8))%Q;
     cropNormalizedTL := ((0, 1 # 4), (1 # 5, 4 # 5))%Q |}.

Definition params (capture_time : Q) (verbose : Z) : Parameters :=
  {| capture_time := capture_time;
     DTOL := 15;
     verbose := verbose;
     crop_params := crops |}.

Definition table : list ProtocolEntry :=
  [ {| frequency := 8; tolerance := 1; symbol := "CAR_SIGNAL_A" |} ].

End Sample.

(** ** Further notions used in the statements *)

(** The attributes that decide what [camera_callback] does with a frame. *)
Definition control (s : State)
  : Q * bool * bool * list Frame * bool :=
  (first_timestamp s, capture_finished s, trigger s, data s, sub_cam s).

(** All frames can be assigned to a plane of the shape of the first one. *)
Definition stackable (d : list Frame) : bool :=
  match d with
  | [] => false
  | v0 :: _ =>
      forallb (fun v => broadcastable (fst (shape2 (rgb v0)))
                                      (snd (shape2 (rgb v0))) (rgb v)) d
  end.

(** The node is capturing a window. *)
Definition capturing (s : State) : Prop :=
  trigger s = false /\ capture_finished s = false /\
  sub_cam s = true /\ Qltb 0 (first_timestamp s) = true.


(** Number of frames delivered so far that a capture in progress accounts
    for. *)
Definition pending (s : State) : nat :=
  if trigger s then 0%nat
  else if capture_finished s then 0%nat
  else match data s with [] => 0%nat | _ :: _ => 1%nat end.

(** ** Messages whose image may fail to decode *)

(** A message as delivered: the header stamp and the outcome of
    [cv2.cvtColor(numpy_from_ros_compressed(msg), COLOR_BGRA2GRAY)], which
    returns the single-channel image or raises. *)
Record CameraMessage : Type := {
  header_stamp : Q;
  decode : result ndarray2
}.

(** A message whose image decodes. *)
Definition decodable (msg : CompressedImage) : CameraMessage :=
  {| header_stamp := stamp msg; decode := Ok (gray msg) |}.

(** The first [if]/[elif] of [camera_callback], for a stamp. *)
Definition arm_at (float_time : Q) (s : State) : State :=
  if trigger s then
    set_first_timestamp float_time
      (set_capture_finished false (set_data [] (set_trigger false s)))
  else if capture_finished s then set_node_state 0 s
  else s.

Section RawNode.

Context {detector : LEDDetector}.
Variable parameters : Parameters.

Local Open Scope method_scope.

(** [camera_callback] on an arbitrary message: in the capturing branch
    [node_state] is assigned, then the image is decoded, then the frame is
    appended. *)
Definition camera_callback_raw (msg : CameraMessage) : M unit :=
  let float_time := header_stamp msg in
  modify (arm_at float_time) ;;
  s <- get ;;
  if Qltb 0 (first_timestamp s) then
    let rel_time := (float_time - first_timestamp s)%Q in
    if Qltb rel_time (capture_time parameters) then
      modify (set_node_state 1) ;;
      gray <- lift (decode msg) ;;
      let rgb := invert_uint8 gray in
      modify (fun s =>
                set_data (data s ++ [{| timestamp := float_time;
                                        rgb := rgb |}]) s)
    else if negb (capture_finished s) && Qltb 0 (first_timestamp s) then
      modify start_processing ;;
      process_and_publish parameters
    else ret tt
  else ret tt.

Definition deliver_raw (msg : CameraMessage) : M unit :=
  s <- get ;;
  if sub_cam s then camera_callback_raw msg else ret tt.

Definition run_raw (msgs : list CameraMessage) (s : State) : State :=
  fold_left (fun s msg => snd (deliver_raw msg s)) msgs s.

End RawNode.

(** The conditions under which [camera_callback_raw] reaches the call of
    [process_and_publish]. *)
Definition processing_begins_raw (parameters : Parameters)
  (msg : CameraMessage) (s : State) : bool :=
  let s1 := arm_at (header_stamp msg) s in
  Qltb 0 (first_timestamp s1)
  && negb (Qltb (header_stamp msg - first_timestamp s1)
                (capture_time parameters))
  && negb (capture_finished s1).

(** A sample message whose image does not decode. *)
Definition corrupt_message (t : Q) : CameraMessage :=
  {| header_stamp := t; decode := Raise InputError |}.

(** * Log utilities (easy_logs/app_with_logs.py)

    The log database ([get_all_resources], [get_easy_logs_db2]), the file
    system, the download helpers of [duckietown_utils], [DTR.from_yaml] and
    [_create_file_uri] are collaborators outside this file: they are
    parameters of the functions below, and what the functions do to them is
    recorded in an explicit environment. *)

Module EasyLogs.

Inductive error : Set :=
| KeyError (key : string)
| Exception (msg : string).

Inductive outcome (A : Type) : Type :=
| Return (a : A)
| Throw (e : error).

Arguments Return {A} a.
Arguments Throw {A} e.

(** ['8080' in x]: [p] occurs in [s]. *)
Fixpoint contains (p s : string) : bool :=
  String.prefix p s ||
  match s with
  | EmptyString => false
  | String _ s' => contains p s'
  end.

(** [s.endswith('/')] *)
Fixpoint ends_with_slash (s : string) : bool :=
  match s with
  | EmptyString => false
  | String c EmptyString => Ascii.eqb c "/"%char
  | String _ s' => ends_with_slash s'
  end.

(** [os.path.join(a, b)] on POSIX. *)
Definition path_join (a b : string) : string :=
  if String.prefix "/" b then b
  else if (a =? "")%string || ends_with_slash a then String.append a b
  else String.append a (String.append "/" b).

(** The nested function [priority] of [get_log_if_not_exists]. *)
Definition priority (x : string) : nat :=
  if contains "8080" x then 0%nat else 1%nat.

(** [list.sort(key=...)] is a stable sort: insertion from the right, an
    element being placed before the elements of equal key that followed
    it. *)
Fixpoint insert_by (key : string -> nat) (x : string) (l : list string)
  : list string :=
  match l with
  | [] => [x]
  | y :: l' =>
      if (key x <=? key y)%nat then x :: y :: l'
      else y :: insert_by key x l'
  end.

Definition sort_by (key : string -> nat) (l : list string) : list string :=
  fold_right (insert_by key) [] l.

(** The list [use] of [get_log_if_not_exists], once sorted. *)
Definition candidates (urls : list string) : list string :=
  sort_by priority (filter (String.prefix "http") urls).

(** A dictionary with string keys, as an association list. *)
Fixpoint lookup {A : Type} (k : string) (d : list (string * A)) : option A :=
  match d with
  | [] => None
  | (k', v) :: d' => if (k =? k')%string then Some v else lookup k d'
  end.

(** [d[k] = v] for a key that is present. *)
Fixpoint replace {A : Type} (k : string) (v : A) (d : list (string * A))
  : list (string * A) :=
  match d with
  | [] => []
  | (k', v') :: d' =>
      if (k =? k')%string then (k', v) :: d' else (k', v') :: replace k v d'
  end.

(** A resource description as stored in a log ([dtr_yaml]): its ['urls']
    entry, when present, and its other entries. *)
Record ResourceYaml : Set := {
  yaml_urls : option (list string);
  yaml_entries : list (string * string)
}.

(** [DTR]: the attributes read here. *)
Record DTR : Set := {
  name : string;
  urls : list string
}.

Record PhysicalLog : Set := {
  log_name : string;
  resources : list (string * ResourceYaml)
}.

(** What the functions read from and do to their surroundings. *)
Record World : Set := {
  (** [get_all_resources().basename2filename] *)
  basename2filename : list (string * string);
  (** the paths for which [os.path.exists] holds *)
  existing : list string;
  (** the URLs handed to [download_if_not_exist], oldest first *)
  attempts : list string;
  (** calls of [invalidate_log_cache_because_downloaded] *)
  invalidations : nat
}.

Definition path_exists (w : World) (p : string) : bool :=
  existsb (String.eqb p) (existing w).

Definition record_attempt (url : string) (w : World) : World :=
  {| basename2filename := basename2filename w;
     existing := existing w;
     attempts := attempts w ++ [url];
     invalidations := invalidations w |}.

(** The environment after download attempts on [us], in order. *)
Definition record_attempts (us : list string) (w : World) : World :=
  fold_left (fun w u => record_attempt u w) us w.

Definition record_invalidation (w : World) : World :=
  {| basename2filename := basename2filename w;
     existing := existing w;
     attempts := attempts w;
     invalidations := S (invalidations w) |}.

Section Functions.

(** [DTR.from_yaml] *)
Variable from_yaml : ResourceYaml -> outcome DTR.
(** [dtu.get_duckietown_local_log_downloads()] *)
Variable downloads : string.
(** Whether [d8n_make_sure_dir_exists(filename)] followed by
    [download_if_not_exist(url, filename)] completes without an exception,
    given what was attempted before. *)
Variable fetch : World -> string -> string -> bool.
(** [_create_file_uri] *)
Variable create_file_uri : string -> string.

(** The loop [for url in use: try ... except ... else: break]; the result
    tells whether the loop was left by [break]. *)
Fixpoint try_downloads (filename : string) (use : list string) (w : World)
  : bool * World :=
  match use with
  | [] => (false, w)
  | url :: use' =>
      let w' := record_attempt url w in
      if fetch w url filename then (true, w')
      else try_downloads filename use' w'
  end.

Definition get_log_if_not_exists (log : PhysicalLog) (resource_name : string)
  (w : World) : outcome string * World :=
  match lookup resource_name (resources log) with
  | None => (Throw (KeyError resource_name), w)
  | Some dtr_yaml =>
      match from_yaml dtr_yaml with
      | Throw e => (Throw e, w)
      | Return dtr =>
          match lookup (name dtr) (basename2filename w) with
          | Some filename => (Return filename, w)
          | None =>
              let filename := path_join downloads (name dtr) in
              if path_exists w filename then (Return filename, w)
              else
                let use := candidates (urls dtr) in
                match try_downloads filename use w with
                | (true, w') => (Return filename, record_invalidation w')
                | (false, w') =>
                    (Throw (Exception "Could not download any file"), w')
                end
          end
      end
  end.

Definition download_if_necessary (log : PhysicalLog) (w : World)
  : outcome PhysicalLog * World :=
  let resource_name := "bag"%string in
  match get_log_if_not_exists log resource_name w with
  | (Throw e, w') => (Throw e, w')
  | (Return filename, w') =>
      let local_uri := create_file_uri filename in
      match lookup resource_name (resources log) with
      | None => (Throw (KeyError resource_name), w')
      | Some r =>
          match yaml_urls r with
          | None => (Throw (KeyError "urls"), w')
          | Some us =>
              let r' := {| yaml_urls := Some (us ++ [local_uri]);
                           yaml_entries := yaml_entries r |} in
              (Return {| log_name := log_name log;
                         resources :=
                           replace resource_name r' (resources log) |}, w')
          end
      end
  end.

End Functions.

(** ** [D8AppWithLogs.get_easy_logs_db] *)

Record Options : Set := {
  no_cloud : bool;
  no_local : bool;
  write_candidate_cloud : bool;
  cache_reset : bool
}.

Section App.

Variable DB : Type.
(** [get_easy_logs_db2(do_not_use_cloud, do_not_use_local, ignore_cache)] *)
Variable get_easy_logs_db2 : bool -> bool -> bool -> DB.

(** The attribute [_db] of the application, with the calls made to
    [get_easy_logs_db2] and to [write_candidate_cloud]. *)
Record App : Type := {
  _db : option DB;
  built : list (bool * bool * bool);
  written : list DB
}.

(** [self._db = None] of [_define_my_options]. *)
Definition fresh : App := {| _db := None; built := []; written := [] |}.

Definition get_easy_logs_db (options : Options) (a : App) : DB * App :=
  match _db a with
  | Some db => (db, a)
  | None =>
      let do_not_use_cloud := no_cloud options in
      let do_not_use_local := no_local options in
      let do_write_candidate_cloud := write_candidate_cloud options in
      let ignore_cache := cache_reset options in
      let db := get_easy_logs_db2 do_not_use_cloud do_not_use_local
                                  ignore_cache in
      (db,
       {| _db := Some db;
          built := built a
                   ++ [(do_not_use_cloud, do_not_use_local, ignore_cache)];
          written := if do_write_candidate_cloud then written a ++ [db]
                     else written a |})
  end.

(** The application after a sequence of calls, one per element of
    [calls]. *)
Definition call_all (calls : list Options) (a : App) : App :=
  fold_left (fun a o => snd (get_easy_logs_db o a)) calls a.

End App.

End EasyLogs.

Module LogSample.

Import EasyLogs.

Definition from_yaml (y : ResourceYaml) : outcome DTR :=
  match lookup "name" (yaml_entries y), yaml_urls y with
  | Some n, Some us => Return {| name := n; urls := us |}
  | None, _ => Throw (KeyError "name")
  | _, None => Throw (KeyError "urls")
  end.

Definition bag : ResourceYaml :=
  {| yaml_urls := Some ["http://a.example/x.bag";
                        "file:///data/x.bag";
                        "http://b.example:8080/x.bag"]%string;
     yaml_entries := [("name", "x.bag")]%string |}.

Definition log : PhysicalLog :=
  {| log_name := "x";
     resources := [("thumbnails"%string,
                    {| yaml_urls := Some []; yaml_entries := [] |});
                   ("bag"%string, bag)] |}.

Definition world : World :=
  {| basename2filename := [("y.bag", "/data/y.bag")]%string;
     existing := ["/data/y.bag"]%string;
     attempts := [];
     invalidations := 0 |}.

(** The mirror on port 8080 does not answer. *)
Definition fetch (w : World) (url filename : string) : bool :=
  negb (contains "8080" url).

(** No server answers. *)
Definition fetch_none (w : World) (url filename : string) : bool := false.

Definition create_file_uri (filename : string) : string :=
  String.append "file://" filename.

Definition options (write : bool) : Options :=
  {| no_cloud := false; no_local := true;
     write_candidate_cloud := write; cache_reset := false |}.

End LogSample.

(** * Properties *)

(** ** Comparisons *)

Lemma Qltb_lt (x y : Q) : Qltb x y = true <-> (x < y)%Q.
Proof.
  unfold Qltb. rewrite negb_true_iff. split; intro H.
  - apply Qnot_le_lt. intro Hle. apply Qle_bool_iff in Hle. congruence.
  - destruct (Qle_bool y x) eqn:E; [|reflexivity].
    apply Qle_bool_iff in E. exfalso. revert E. apply Qlt_not_le, H.
Qed.

Lemma Qltb_ge (x y : Q) : Qltb x y = false <-> (y <= x)%Q.
Proof.
  unfold Qltb. rewrite negb_false_iff. apply Qle_bool_iff.
Qed.

(** ** Region cropping: index arithmetic *)

Lemma scaled_unit_bounds (n : nat) (q : Q) :
  (0 <= q <= 1)%Q ->
  (0 <= inject_Z (Z.of_nat n) * q <= inject_Z (Z.of_nat n))%Q.
Proof.
  intros [H0 H1].
  assert (Hn : (0 <= inject_Z (Z.of_nat n))%Q).
  { change 0%Q with (inject_Z 0). rewrite <- Zle_Qle. lia. }
  split; [apply Qmult_le_0_compat; assumption|].
  rewrite <- (Qmult_1_r (inject_Z (Z.of_nat n))) at 2.
  rewrite (Qmult_comm _ q), (Qmult_comm _ 1).
  apply Qmult_le_compat_r; assumption.
Qed.

Lemma floor_scaled_bounds (n : nat) (q : Q) :
  (0 <= q <= 1)%Q ->
  0 <= Qfloor (inject_Z (Z.of_nat n) * q) <= Z.of_nat n.
Proof.
  intro H. destruct (scaled_unit_bounds n H) as [Hlo Hhi]. split.
  - rewrite <- (Qfloor_Z 0). apply Qfloor_resp_le, Hlo.
  - rewrite <- (Qfloor_Z (Z.of_nat n)) at 2. apply Qfloor_resp_le, Hhi.
Qed.

Lemma ceiling_scaled_bounds (n : nat) (q : Q) :
  (0 <= q <= 1)%Q ->
  0 <= Qceiling (inject_Z (Z.of_nat n) * q) <= Z.of_nat n.
Proof.
  intro H. destruct (scaled_unit_bounds n H) as [Hlo Hhi]. split.
  - rewrite <- (Qceiling_Z 0). apply Qceiling_resp_le, Hlo.
  - rewrite <- (Qceiling_Z (Z.of_nat n)) at 2. apply Qceiling_resp_le, Hhi.
Qed.

Lemma adjust_index_in_range (len i : Z) :
  0 <= i <= len -> adjust_index len i = i.
Proof.
  intro H. unfold adjust_index.
  destruct (Z.ltb_spec i 0); lia.
Qed.


Lemma slice_indices_in_range (len : nat) (a b : Z) :
  0 <= a <= Z.of_nat len -> 0 <= b <= Z.of_nat len ->
  slice_indices len a b = (Z.to_nat a, Z.to_nat (b - a)).
Proof.
  intros Ha Hb. unfold slice_indices.
  now rewrite !adjust_index_in_range.
Qed.


Lemma crop_image_eq (images : ndarray3) (c : crop_norm) (H W D : nat) :
  shape3 images = (H, W, D) ->
  crop_image images c =
  Ok {| shape3 := (snd (slice_indices H (crop_h_start H c) (crop_h_end H c)),
                   snd (slice_indices W (crop_w_start W c) (crop_w_end W c)),
                   D);
        at3 := fun i j k =>
          at3 images
            (fst (slice_indices H (crop_h_start H c) (crop_h_end H c)) + i)%nat
            (fst (slice_indices W (crop_w_start W c) (crop_w_end W c)) + j)%nat
            k |}.
Proof.
  intro Hs. unfold crop_image, slice3. rewrite Hs.
  destruct (slice_indices H _ _), (slice_indices W _ _). reflexivity.
Qed.

(** ** Region cropping *)

(** C6: on a stacked volume of height [H] and width [W], the crop of a
    normalized box [[h0, h1], [w0, w1]] is the slice of rows
    [floor(H*h0) .. ceil(H*h1) - 1] and columns
    [floor(W*w0) .. ceil(W*w1) - 1]; these bounds lie within the image, and
    every frame of the depth axis is kept. *)
Theorem crop_image_floor_ceil_slice
  (images : ndarray3) (h0 h1 w0 w1 : Q) (H W D : nat) :
  shape3 images = (H, W, D) ->
  normalized ((h0, h1), (w0, w1)) ->
  let h_start := Qfloor (inject_Z (Z.of_nat H) * h0) in
  let h_end := Qceiling (inject_Z (Z.of_nat H) * h1) in
  let w_start := Qfloor (inject_Z (Z.of_nat W) * w0) in
  let w_end := Qceiling (inject_Z (Z.of_nat W) * w1) in
  exists v,
    crop_image images ((h0, h1), (w0, w1)) = Ok v /\
    0 <= h_start <= Z.of_nat H /\ 0 <= h_end <= Z.of_nat H /\
    0 <= w_start <= Z.of_nat W /\ 0 <= w_end <= Z.of_nat W /\
    shape3 v = (Z.to_nat (h_end - h_start), Z.to_nat (w_end - w_start), D) /\
    forall i j k,
      at3 v i j k =
      at3 images (Z.to_nat h_start + i)%nat (Z.to_nat w_start + j)%nat k.
Proof.
  intros Hs (Hh0 & Hh1 & Hw0 & Hw1) h_start h_end w_start w_end.
  cbn [fst snd] in Hh0, Hh1, Hw0, Hw1.
  pose proof (floor_scaled_bounds H Hh0) as Bhs.
  pose proof (ceiling_scaled_bounds H Hh1) as Bhe.
  pose proof (floor_scaled_bounds W Hw0) as Bws.
  pose proof (ceiling_scaled_bounds W Hw1) as Bwe.
  eexists. split; [apply (crop_image_eq images _ Hs)|].
  unfold crop_h_start, crop_h_end, crop_w_start, crop_w_end; cbn [fst snd].
  subst h_start h_end w_start w_end.
  rewrite (slice_indices_in_range H Bhs Bhe).
  rewrite (slice_indices_in_range W Bws Bwe).
  cbn [fst snd shape3 at3].
  repeat split; try (apply Bhs || apply Bhe || apply Bws || apply Bwe).
Qed.

Lemma crop_image_floor_ceil_slice_witness :
  exists v,
    crop_image (Sample.volume 10 8 3) ((1 # 5, 3 # 5), (1 # 2, 1))%Q = Ok v /\
    shape3 v = (4, 4, 3)%nat /\
    at3 v 1 2 0 = at3 (Sample.volume 10 8 3) 3 6 0.
Proof.
  destruct (@crop_image_floor_ceil_slice (Sample.volume 10 8 3)
              (1 # 5) (3 # 5) (1 # 2) 1 10 8 3 eq_refl)
    as (v & Hv & _ & _ & _ & _ & Hshape & Hat).
  - unfold normalized, Qle; cbn. lia.
  - exists v. split; [exact Hv|]. split; [exact Hshape|]. apply Hat.
Defined.




(** ** Processing one window *)

Section Processing.

Context {detector : LEDDetector}.
Variable parameters : Parameters.

Ltac run_method :=
  unfold process_and_publish, publish, bind, lift, get, modify, ret.

(** A run that returns has extracted the blobs of the three regions,
    computed the sampling time and classified each region. *)
Lemma process_and_publish_returns (s s' : State) :
  process_and_publish parameters s = (Ok tt, s') ->
  exists br bf bt t_s r f t,
    extract_blobs parameters (data s) = Ok (br, bf, bt) /\
    sampling_time (capture_time parameters) (List.length (data s)) = Ok t_s /\
    interpret_signal br t_s (List.length (data s)) = Ok r /\
    interpret_signal bf t_s (List.length (data s)) = Ok f /\
    interpret_signal bt t_s (List.length (data s)) = Ok t /\
    s' = completed s r f t.
Proof.
  run_method.
  destruct (extract_blobs parameters (data s)) as [[[br bf] bt]|e];
    [|discriminate].
  cbn [data set_right set_front set_traffic_light].
  destruct (sampling_time _ _) as [t_s|e]; [|discriminate].
  destruct (interpret_signal br t_s _) as [r|e] eqn:Er; [|discriminate].
  destruct (interpret_signal bf t_s _) as [f|e] eqn:Ef; [|discriminate].
  destruct (interpret_signal bt t_s _) as [t|e] eqn:Et; [|discriminate].
  intro Heq. exists br, bf, bt, t_s, r, f, t.
  repeat split; try assumption.
  inversion Heq. reflexivity.
Qed.

Lemma process_and_publish_complete (s : State) br bf bt t_s r f t :
  extract_blobs parameters (data s) = Ok (br, bf, bt) ->
  sampling_time (capture_time parameters) (List.length (data s)) = Ok t_s ->
  interpret_signal br t_s (List.length (data s)) = Ok r ->
  interpret_signal bf t_s (List.length (data s)) = Ok f ->
  interpret_signal bt t_s (List.length (data s)) = Ok t ->
  process_and_publish parameters s = (Ok tt, completed s r f t).
Proof.
  intros He Hs Hr Hf Ht. run_method.
  rewrite He. cbn [data set_right set_front set_traffic_light].
  rewrite Hs, Hr, Hf, Ht. reflexivity.
Qed.

(** Whatever the outcome, the window, the flags tested by the callback's
    capture logic and the detections already published are those of the
    start; a run that raises publishes nothing and leaves [trigger] and
    the subscription as they were. *)
Lemma process_and_publish_frame (s : State) :
  let s' := snd (process_and_publish parameters s) in
  data s' = data s /\
  first_timestamp s' = first_timestamp s /\
  capture_finished s' = capture_finished s /\
  (forall e, fst (process_and_publish parameters s) = Raise e ->
     trigger s' = trigger s /\ sub_cam s' = sub_cam s /\
     pub_detections s' = pub_detections s).
Proof.
  run_method.
  destruct (extract_blobs parameters (data s)) as [[[br bf] bt]|e].
  2:{ cbn. repeat split. }
  cbn [data set_right set_front set_traffic_light].
  destruct (sampling_time _ _) as [t_s|e].
  2:{ cbn. repeat split. }
  destruct (interpret_signal br t_s _) as [r|e].
  2:{ cbn. repeat split. }
  destruct (interpret_signal bf t_s _) as [f|e].
  2:{ cbn. repeat split. }
  destruct (interpret_signal bt t_s _) as [t|e].
  2:{ cbn. repeat split. }
  cbn. repeat split; discriminate.
Qed.

(** On an empty window the access [self.data[0]] raises. *)
Lemma process_and_publish_empty (s : State) :
  data s = [] -> process_and_publish parameters s = (Raise IndexError, s).
Proof.
  intro Hd. run_method. unfold extract_blobs. rewrite Hd.
  reflexivity.
Qed.

Lemma extract_blobs_nonempty (d : list Frame) b :
  extract_blobs parameters d = Ok b -> d <> [].
Proof.
  intros H Hd. subst d. discriminate H.
Qed.

Lemma sampling_time_nonempty (c : Q) (n : nat) :
  n <> 0%nat ->
  exists t_s, sampling_time c n = Ok t_s /\
              (t_s == c / inject_Z (Z.of_nat n))%Q.
Proof.
  intro Hn. unfold sampling_time.
  destruct (Qeq_bool _ _) eqn:E.
  - apply Qeq_bool_iff in E. exfalso.
    rewrite Qmult_1_l in E.
    unfold Qeq in E. cbn in E. lia.
  - eexists. split; [reflexivity|].
    now rewrite !Qmult_1_l.
Qed.

End Processing.

(** ** The capture state machine *)

Section Capture.

Context {detector : LEDDetector}.
Variable parameters : Parameters.

(** [camera_callback] as a function of the attributes. *)
Lemma camera_callback_eq (msg : CompressedImage) (s : State) :
  camera_callback parameters msg s =
  let s1 := arm msg s in
  if Qltb 0 (first_timestamp s1) then
    if Qltb (stamp msg - first_timestamp s1) (capture_time parameters) then
      (Ok tt, capture msg s1)
    else if negb (capture_finished s1) then
      process_and_publish parameters (start_processing s1)
    else (Ok tt, s1)
  else (Ok tt, s1).
Proof.
  unfold camera_callback, bind, modify, get, ret. cbv zeta.
  destruct (Qltb 0 (first_timestamp (arm msg s))); [|reflexivity].
  destruct (Qltb _ (capture_time parameters)); [reflexivity|].
  destruct (capture_finished (arm msg s)); reflexivity.
Qed.

Lemma deliver_eq (msg : CompressedImage) (s : State) :
  deliver parameters msg s =
  if sub_cam s then camera_callback parameters msg s else (Ok tt, s).
Proof.
  unfold deliver, bind, get, ret. destruct (sub_cam s); reflexivity.
Qed.

Lemma processing_start (msg : CompressedImage) (s : State) :
  processing (start_processing (arm msg s)).
Proof.
  unfold processing, start_processing, arm.
  destruct (trigger s) eqn:Et; [|destruct (capture_finished s)]; cbn;
    repeat split; assumption.
Qed.

(** *** Invariants *)

Lemma node_inv_init : node_inv init.
Proof. unfold node_inv; cbn. repeat split; congruence. Qed.

Lemma node_inv_process (s : State) :
  processing s ->
  node_inv (snd (process_and_publish parameters s)).
Proof.
  intros (Hsub & Htr & Hcf & Hft).
  destruct (process_and_publish parameters s) as [[[]|e] s'] eqn:E.
  - apply process_and_publish_returns in E.
    destruct E as (br & bf & bt & t_s & r & f & t & _ & _ & _ & _ & _ & ->).
    unfold node_inv; cbn. rewrite Hft. repeat split; congruence.
  - pose proof (process_and_publish_frame parameters s) as Hfr.
    rewrite E in Hfr. cbn [fst snd] in Hfr.
    destruct Hfr as (_ & Hft' & Hcf' & Hr).
    destruct (Hr e eq_refl) as (Htr' & Hsub' & _).
    unfold node_inv; cbn [snd].
    rewrite Htr', Hcf', Hft', Htr, Hcf, Hft.
    repeat split; congruence.
Qed.

Lemma node_inv_deliver (msg : CompressedImage) (s : State) :
  node_inv s -> node_inv (snd (deliver parameters msg s)).
Proof.
  intros Hinv. rewrite deliver_eq.
  destruct (sub_cam s) eqn:Hsub; [|exact Hinv].
  rewrite camera_callback_eq. cbv zeta.
  assert (Harm : node_inv (arm msg s)).
  { destruct Hinv as (I1 & I2 & I3). unfold arm, node_inv.
    destruct (trigger s) eqn:Et; [|destruct (capture_finished s) eqn:Ec];
      cbn; rewrite ?Et, ?Ec; repeat split; auto; congruence. }
  destruct (Qltb 0 (first_timestamp (arm msg s))) eqn:Hft; [|exact Harm].
  destruct (Qltb _ (capture_time parameters)).
  - destruct Harm as (I1 & I2 & I3). unfold node_inv, capture; cbn.
    repeat split; auto.
  - destruct (capture_finished (arm msg s)) eqn:Hcf; cbn [negb snd].
    + exact Harm.
    + apply node_inv_process, processing_start.
Qed.

Lemma node_inv_run (msgs : list CompressedImage) (s : State) :
  node_inv s -> node_inv (run parameters msgs s).
Proof.
  revert s. induction msgs as [|m msgs IH]; intros s Hs; [exact Hs|].
  cbn. apply IH, node_inv_deliver, Hs.
Qed.

Lemma window_inv_init : window_inv init.
Proof. unfold window_inv; cbn. congruence. Qed.

Lemma rel_time_zero (t c : Q) : (0 < c)%Q -> Qltb (t - t) c = true.
Proof.
  intro Hc. apply Qltb_lt.
  assert (H : (t - t == 0)%Q) by ring. now rewrite H.
Qed.

Lemma window_inv_deliver (msg : CompressedImage) (s : State) :
  (0 < capture_time parameters)%Q -> (0 < stamp msg)%Q ->
  window_inv s -> window_inv (snd (deliver parameters msg s)).
Proof.
  intros Hct Hpos Hinv. rewrite deliver_eq.
  destruct (sub_cam s) eqn:Hsub; [|exact Hinv].
  rewrite camera_callback_eq. cbv zeta.
  unfold window_inv in *. unfold arm.
  destruct (trigger s) eqn:Et.
  - cbn [first_timestamp set_first_timestamp].
    apply Qltb_lt in Hpos. rewrite Hpos, (rel_time_zero _ Hct).
    cbn. intros _ _. split; congruence.
  - destruct (capture_finished s) eqn:Ec.
    + cbn [first_timestamp set_node_state capture_finished].
      rewrite Ec.
      destruct (Qltb 0 (first_timestamp s)); [|cbn; congruence].
      destruct (Qltb _ (capture_time parameters)); cbn; congruence.
    + destruct (Hinv eq_refl eq_refl) as [Hd Hft].
      rewrite Hft, Ec.
      destruct (Qltb _ (capture_time parameters)); cbn [negb snd].
      * cbn. intros _ _. split; [|exact Hft].
        intro H. apply app_eq_nil in H. destruct H; discriminate.
      * pose proof (process_and_publish_frame parameters
                      (start_processing s)) as (_ & _ & Hcf & _).
        rewrite Hcf. cbn. congruence.
Qed.

Lemma window_inv_run (msgs : list CompressedImage) (s : State) :
  (0 < capture_time parameters)%Q ->
  Forall (fun m => (0 < stamp m)%Q) msgs ->
  window_inv s -> window_inv (run parameters msgs s).
Proof.
  intros Hct Hall. revert s.
  induction Hall as [|m msgs Hm _ IH]; intros s Hs; [exact Hs|].
  cbn. apply IH, window_inv_deliver; assumption.
Qed.

End Capture.

(** *** Sample runs *)

(** Two frames are captured within one second; the third closes the window,
    which is processed and published, and the node is armed again. *)
Example sample_run_publishes :
  let s := run (detector := Sample.detector) (Sample.params 1 0)
             [Sample.message 10 1; Sample.message (21 # 2) 2;
              Sample.message (23 # 2) 3] init in
  pub_detections s =
    [{| duckietown_msgs.front := Some "CAR_SIGNAL_A"%string;
        duckietown_msgs.right := Some "CAR_SIGNAL_A"%string;
        duckietown_msgs.left := Some "UNKNOWN"%string;
        duckietown_msgs.traffic_light_state := Some "CAR_SIGNAL_A"%string |}]
  /\ map timestamp (data s) = [10; 21 # 2]%Q
  /\ trigger s = true /\ sub_cam s = true.
Proof. repeat split. Qed.

(** A frame stamped 0 consumes the trigger without opening a window: the
    guard [first_timestamp > 0] then rejects every later frame. *)
Example zero_stamp_opens_no_window :
  let s := run (detector := Sample.detector) (Sample.params 1 0)
             [Sample.message 0 1; Sample.message 10 2;
              Sample.message 12 3] init in
  data s = [] /\ pub_detections s = [] /\
  trigger s = false /\ capture_finished s = false.
Proof. repeat split. Qed.

(** *** The callback on arbitrary messages *)

Section RawCapture.

Context {detector : LEDDetector}.
Variable parameters : Parameters.

(** [camera_callback_raw] as a function of the attributes. *)
Lemma camera_callback_raw_eq (msg : CameraMessage) (s : State) :
  camera_callback_raw parameters msg s =
  let s1 := arm_at (header_stamp msg) s in
  if Qltb 0 (first_timestamp s1) then
    if Qltb (header_stamp msg - first_timestamp s1)
            (capture_time parameters) then
      match decode msg with
      | Ok g =>
          (Ok tt,
           set_data (data s1 ++ [{| timestamp := header_stamp msg;
                                    rgb := invert_uint8 g |}])
                    (set_node_state 1 s1))
      | Raise e => (Raise e, set_node_state 1 s1)
      end
    else if negb (capture_finished s1) then
      process_and_publish parameters (start_processing s1)
    else (Ok tt, s1)
  else (Ok tt, s1).
Proof.
  unfold camera_callback_raw, bind, modify, get, ret, lift. cbv zeta.
  destruct (Qltb 0 (first_timestamp (arm_at (header_stamp msg) s)));
    [|reflexivity].
  destruct (Qltb _ (capture_time parameters)).
  - destruct (decode msg); reflexivity.
  - destruct (capture_finished (arm_at (header_stamp msg) s)); reflexivity.
Qed.

Lemma deliver_raw_eq (msg : CameraMessage) (s : State) :
  deliver_raw parameters msg s =
  if sub_cam s then camera_callback_raw parameters msg s else (Ok tt, s).
Proof.
  unfold deliver_raw, bind, get, ret. destruct (sub_cam s); reflexivity.
Qed.

Lemma run_raw_cons (m : CameraMessage) (msgs : list CameraMessage)
  (s : State) :
  run_raw parameters (m :: msgs) s =
  run_raw parameters msgs (snd (deliver_raw parameters m s)).
Proof. reflexivity. Qed.

(** On a message whose image decodes, the callback is [camera_callback]. *)
Lemma deliver_raw_decodable (msg : CompressedImage) (s : State) :
  deliver_raw parameters (decodable msg) s = deliver parameters msg s.
Proof.
  rewrite deliver_raw_eq, deliver_eq.
  destruct (sub_cam s); [|reflexivity].
  rewrite camera_callback_raw_eq, camera_callback_eq. reflexivity.
Qed.

Lemma run_raw_decodable (msgs : list CompressedImage) :
  forall s : State,
    run_raw parameters (map decodable msgs) s = run parameters msgs s.
Proof.
  induction msgs as [|m msgs IH]; intro s; [reflexivity|].
  cbn [map]. rewrite run_raw_cons, deliver_raw_decodable.
  change (run parameters (m :: msgs) s)
    with (run parameters msgs (snd (deliver parameters m s))).
  apply IH.
Qed.

Lemma run_raw_unsubscribed (msgs : list CameraMessage) (s : State) :
  sub_cam s = false -> run_raw parameters msgs s = s.
Proof.
  intro Hsub. induction msgs as [|m msgs IH]; [reflexivity|].
  rewrite run_raw_cons, deliver_raw_eq, Hsub. exact IH.
Qed.

Lemma node_inv_arm_at (t : Q) (s : State) :
  node_inv s -> node_inv (arm_at t s).
Proof.
  intros (I1 & I2 & I3). unfold arm_at, node_inv.
  destruct (trigger s) eqn:Et; [|destruct (capture_finished s) eqn:Ec];
    cbn; rewrite ?Et, ?Ec; repeat split; auto; congruence.
Qed.

Lemma processing_start_at (t : Q) (s : State) :
  processing (start_processing (arm_at t s)).
Proof.
  unfold processing, start_processing, arm_at.
  destruct (trigger s) eqn:Et; [|destruct (capture_finished s)]; cbn;
    repeat split; assumption.
Qed.

Lemma node_inv_deliver_raw (msg : CameraMessage) (s : State) :
  node_inv s -> node_inv (snd (deliver_raw parameters msg s)).
Proof.
  intros Hinv. rewrite deliver_raw_eq.
  destruct (sub_cam s) eqn:Hsub; [|exact Hinv].
  rewrite camera_callback_raw_eq. cbv zeta.
  pose proof (node_inv_arm_at (header_stamp msg) Hinv) as Harm.
  destruct (Qltb 0 (first_timestamp (arm_at (header_stamp msg) s)));
    [|exact Harm].
  destruct (Qltb _ (capture_time parameters)).
  - destruct Harm as (I1 & I2 & I3).
    destruct (decode msg); unfold node_inv; cbn; repeat split; auto.
  - destruct (capture_finished (arm_at (header_stamp msg) s)) eqn:Hcf;
      cbn [negb snd].
    + exact Harm.
    + apply node_inv_process, processing_start_at.
Qed.

Lemma node_inv_run_raw (msgs : list CameraMessage) (s : State) :
  node_inv s -> node_inv (run_raw parameters msgs s).
Proof.
  revert s. induction msgs as [|m msgs IH]; intros s Hs; [exact Hs|].
  rewrite run_raw_cons. apply IH, node_inv_deliver_raw, Hs.
Qed.

Lemma open_window_flags_at (t : Q) (s : State) :
  node_inv s ->
  Qltb 0 (first_timestamp (arm_at t s)) = true ->
  sub_cam s = true /\ capture_finished (arm_at t s) = false.
Proof.
  intros (I1 & I2 & I3). unfold arm_at.
  destruct (trigger s) eqn:Et; [cbn; auto|].
  destruct (capture_finished s) eqn:Ec; cbn [first_timestamp set_node_state].
  - intro H. rewrite (I3 eq_refl) in H. discriminate.
  - auto.
Qed.

(** The callback while a window is open. *)
Lemma deliver_raw_open_window (msg : CameraMessage) (s : State) :
  node_inv s ->
  Qltb 0 (first_timestamp (arm_at (header_stamp msg) s)) = true ->
  deliver_raw parameters msg s =
  let s1 := arm_at (header_stamp msg) s in
  if Qltb (header_stamp msg - first_timestamp s1) (capture_time parameters)
  then
    match decode msg with
    | Ok g =>
        (Ok tt,
         set_data (data s1 ++ [{| timestamp := header_stamp msg;
                                  rgb := invert_uint8 g |}])
                  (set_node_state 1 s1))
    | Raise e => (Raise e, set_node_state 1 s1)
    end
  else process_and_publish parameters (start_processing s1).
Proof.
  intros Hinv Hft.
  destruct (open_window_flags_at (header_stamp msg) Hinv Hft) as [Hsub Hcf].
  rewrite deliver_raw_eq, Hsub, camera_callback_raw_eq. cbv zeta.
  rewrite Hft, Hcf. reflexivity.
Qed.

End RawCapture.

(** C3, as stated, fails in two ways.  After a frame stamped 0 has consumed
    the trigger, [first_timestamp] is 0: a frame with
    [rel_time < capture_time] is not appended, and a frame beyond
    [capture_time] starts no processing.  And in an open window a frame
    with [rel_time < capture_time] whose image does not decode is not
    appended. *)
Lemma frame_in_time_not_appended :
  (0 < capture_time (Sample.params 1 0))%Q /\
  (header_stamp (decodable (Sample.message (1 # 2) 2))
   - first_timestamp
       (arm_at (1 # 2)
          (run_raw (detector := Sample.detector) (Sample.params 1 0)
             [decodable (Sample.message 0 1)] init))
   < capture_time (Sample.params 1 0))%Q /\
  data (snd (deliver_raw (detector := Sample.detector) (Sample.params 1 0)
               (decodable (Sample.message (1 # 2) 2))
               (run_raw (detector := Sample.detector) (Sample.params 1 0)
                  [decodable (Sample.message 0 1)] init))) = [] /\
  deliver_raw (detector := Sample.detector) (Sample.params 1 0)
    (decodable (Sample.message 5 3))
    (run_raw (detector := Sample.detector) (Sample.params 1 0)
       [decodable (Sample.message 0 1)] init)
  = (Ok tt,
     run_raw (detector := Sample.detector) (Sample.params 1 0)
       [decodable (Sample.message 0 1)] init) /\
  (header_stamp (corrupt_message (3 # 2))
   - first_timestamp
       (run_raw (detector := Sample.detector) (Sample.params 1 0)
          [decodable (Sample.message 1 10)] init)
   < capture_time (Sample.params 1 0))%Q /\
  data (snd (deliver_raw (detector := Sample.detector) (Sample.params 1 0)
               (corrupt_message (3 # 2))
               (run_raw (detector := Sample.detector) (Sample.params 1 0)
                  [decodable (Sample.message 1 10)] init)))
  = data (run_raw (detector := Sample.detector) (Sample.params 1 0)
            [decodable (Sample.message 1 10)] init).
Proof.
  repeat split.
Qed.

(** C3 (as the code has it): in every state the node reaches, while a
    window is open, that is, while the callback finds a positive
    [first_timestamp] to compute [rel_time] from, a delivered frame whose
    image decodes is appended exactly when [rel_time < capture_time]; a
    frame with [rel_time < capture_time] whose image does not decode
    raises and is not appended; a frame whose [rel_time] reaches
    [capture_time] starts the processing of the window as buffered so far
    and is not part of it.  While [first_timestamp] is not positive the
    frame is not appended and nothing is processed. *)
Theorem open_window_appends_iff_in_time
  (detector : LEDDetector) (parameters : Parameters)
  (msgs : list CameraMessage) (msg : CameraMessage) :
  let s := run_raw parameters msgs init in
  let s1 := arm_at (header_stamp msg) s in
  let rel_time := (header_stamp msg - first_timestamp s1)%Q in
  ((0 < first_timestamp s1)%Q ->
   (forall g,
      decode msg = Ok g ->
      (data (snd (deliver_raw parameters msg s))
       = data s1 ++ [{| timestamp := header_stamp msg;
                        rgb := invert_uint8 g |}]
       <-> (rel_time < capture_time parameters)%Q) /\
      ((rel_time < capture_time parameters)%Q ->
       deliver_raw parameters msg s
       = (Ok tt,
          set_data (data s1 ++ [{| timestamp := header_stamp msg;
                                   rgb := invert_uint8 g |}])
                   (set_node_state 1 s1)))) /\
   (forall e,
      decode msg = Raise e ->
      (rel_time < capture_time parameters)%Q ->
      deliver_raw parameters msg s = (Raise e, set_node_state 1 s1) /\
      data (set_node_state 1 s1) = data s1) /\
   (~ (rel_time < capture_time parameters)%Q ->
    deliver_raw parameters msg s
    = process_and_publish parameters (start_processing s1) /\
    data (start_processing s1) = data s1 /\
    data (snd (deliver_raw parameters msg s)) = data s1)) /\
  (~ (0 < first_timestamp s1)%Q ->
   (deliver_raw parameters msg s = (Ok tt, s1) \/
    deliver_raw parameters msg s = (Ok tt, s)) /\
   data s1 = (if trigger s then [] else data s)).
Proof.
  intros s s1 rel_time.
  pose proof (@node_inv_run_raw detector parameters msgs init node_inv_init)
    as Hinv.
  fold s in Hinv. split.
  - intro Hft. apply Qltb_lt in Hft.
    pose proof (@deliver_raw_open_window detector parameters msg s Hinv Hft)
      as Hd.
    cbv zeta in Hd. fold s1 rel_time in Hd.
    assert (Hdata : Qltb rel_time (capture_time parameters) = false ->
                    deliver_raw parameters msg s
                    = process_and_publish parameters (start_processing s1) /\
                    data (snd (deliver_raw parameters msg s)) = data s1).
    { intro Hge. rewrite Hd, Hge. split; [reflexivity|].
      pose proof (process_and_publish_frame parameters (start_processing s1))
        as (Hdat & _).
      exact Hdat. }
    split; [|split].
    + intros g Hg. split; [split|].
      * intro Happ. apply Qltb_lt.
        destruct (Qltb rel_time (capture_time parameters)) eqn:E;
          [reflexivity|].
        destruct (Hdata eq_refl) as [_ Hsame]. rewrite Hsame in Happ.
        apply (f_equal (@List.length Frame)) in Happ.
        rewrite length_app in Happ. cbn in Happ. lia.
      * intro Hlt. apply Qltb_lt in Hlt. rewrite Hd, Hlt, Hg. reflexivity.
      * intro Hlt. apply Qltb_lt in Hlt. rewrite Hd, Hlt, Hg. reflexivity.
    + intros e He Hlt. apply Qltb_lt in Hlt. rewrite Hd, Hlt, He.
      split; reflexivity.
    + intro Hge.
      assert (E : Qltb rel_time (capture_time parameters) = false).
      { destruct (Qltb rel_time (capture_time parameters)) eqn:E;
          [|reflexivity].
        apply Qltb_lt in E. contradiction. }
      destruct (Hdata E) as [H1 H2].
      split; [exact H1|]. split; [reflexivity|exact H2].
  - intro Hft.
    assert (E : Qltb 0 (first_timestamp s1) = false).
    { destruct (Qltb 0 (first_timestamp s1)) eqn:E; [|reflexivity].
      apply Qltb_lt in E. contradiction. }
    split.
    + rewrite deliver_raw_eq. destruct (sub_cam s); [|right; reflexivity].
      left. rewrite camera_callback_raw_eq. cbv zeta. fold s1.
      rewrite E. reflexivity.
    + unfold s1, arm_at.
      destruct (trigger s); [reflexivity|].
      destruct (capture_finished s); reflexivity.
Qed.

Lemma open_window_appends_iff_in_time_witness :
  deliver_raw (detector := Sample.detector) (Sample.params 1 0)
    (decodable (Sample.message (7 # 5) 30))
    (run_raw (detector := Sample.detector) (Sample.params 1 0)
       [decodable (Sample.message 1 10)] init)
  = (Ok tt,
     capture (Sample.message (7 # 5) 30)
       (run_raw (detector := Sample.detector) (Sample.params 1 0)
          [decodable (Sample.message 1 10)] init)).
Proof.
  destruct (@open_window_appends_iff_in_time Sample.detector
              (Sample.params 1 0) [decodable (Sample.message 1 10)]
              (decodable (Sample.message (7 # 5) 30)))
    as (Hopen & _).
  destruct (Hopen eq_refl) as (Hdec & _).
  destruct (Hdec (gray (Sample.message (7 # 5) 30)) eq_refl) as (_ & Hin).
  apply Hin. reflexivity.
Defined.

(** C10, as stated, fails: the opening frame is stamped 1 but its image
    does not decode, so that the window is open and empty; the next frame,
    stamped 3, reaches [process_and_publish], where [self.data[0]]
    raises. *)
Lemma corrupt_opening_frame_leaves_window_empty :
  (0 < capture_time (Sample.params 1 0))%Q /\
  (0 < header_stamp (corrupt_message 1))%Q /\
  (0 < header_stamp (decodable (Sample.message 3 50)))%Q /\
  processing_begins_raw (Sample.params 1 0)
    (decodable (Sample.message 3 50))
    (run_raw (detector := Sample.detector) (Sample.params 1 0)
       [corrupt_message 1] init) = true /\
  data (start_processing
          (arm_at 3
             (run_raw (detector := Sample.detector) (Sample.params 1 0)
                [corrupt_message 1] init))) = [] /\
  fst (deliver_raw (detector := Sample.detector) (Sample.params 1 0)
         (decodable (Sample.message 3 50))
         (run_raw (detector := Sample.detector) (Sample.params 1 0)
            [corrupt_message 1] init))
  = Raise IndexError.
Proof.
  repeat split.
Qed.

(** C10 (as the code has it): after frames with positive time stamps whose
    images all decode, and with a positive [capture_time], a frame that
    opens a window has relative time 0 and, if its image decodes, is
    appended; and whenever the callback reaches [process_and_publish] the
    window holds at least one frame, so that [self.data[0]] does not
    fail. *)
Theorem decoded_window_nonempty_when_processing_begins
  (detector : LEDDetector) (parameters : Parameters)
  (msgs : list CompressedImage) (msg : CameraMessage) :
  (0 < capture_time parameters)%Q ->
  Forall (fun m => (0 < stamp m)%Q) msgs ->
  (0 < header_stamp msg)%Q ->
  let s := run_raw parameters (map decodable msgs) init in
  let s1 := arm_at (header_stamp msg) s in
  (trigger s = true ->
   forall g,
     decode msg = Ok g ->
     deliver_raw parameters msg s
     = (Ok tt,
        set_data [{| timestamp := header_stamp msg; rgb := invert_uint8 g |}]
                 (set_node_state 1 s1))) /\
  (processing_begins_raw parameters msg s = true ->
   deliver_raw parameters msg s
   = process_and_publish parameters (start_processing s1) /\
   data (start_processing s1) <> [] /\
   exists v, first_frame (data (start_processing s1)) = Ok v).
Proof.
  intros Hct Hall Hpos s s1.
  assert (Hs : s = run parameters msgs init).
  { unfold s. apply run_raw_decodable. }
  pose proof (node_inv_run parameters msgs node_inv_init) as Hinv.
  pose proof (window_inv_run parameters Hct Hall window_inv_init) as Hwin.
  rewrite <- Hs in Hinv, Hwin. split.
  - intros Htr g Hg.
    assert (Hft : Qltb 0 (first_timestamp s1) = true).
    { unfold s1, arm_at. rewrite Htr. cbn. apply Qltb_lt, Hpos. }
    rewrite (@deliver_raw_open_window detector parameters msg s Hinv Hft).
    cbv zeta. fold s1.
    assert (Hs1 : first_timestamp s1 = header_stamp msg /\ data s1 = []).
    { unfold s1, arm_at. rewrite Htr. split; reflexivity. }
    destruct Hs1 as [Hft1 Hd1]. rewrite Hft1, Hd1.
    rewrite (rel_time_zero _ Hct), Hg. reflexivity.
  - unfold processing_begins_raw. cbv zeta. fold s1. intro Hb.
    apply andb_true_iff in Hb. destruct Hb as [Hb Hcf].
    apply andb_true_iff in Hb. destruct Hb as [Hft Hrel].
    apply negb_true_iff in Hcf, Hrel.
    rewrite (@deliver_raw_open_window detector parameters msg s Hinv Hft).
    cbv zeta. fold s1. rewrite Hrel.
    split; [reflexivity|].
    assert (Hd : data (start_processing s1) <> []).
    { revert Hrel Hcf. unfold s1, arm_at.
      destruct (trigger s) eqn:Et.
      - cbn [first_timestamp set_first_timestamp].
        rewrite (rel_time_zero _ Hct). discriminate.
      - destruct (capture_finished s) eqn:Ec; [cbn; congruence|].
        intros _ _. apply (Hwin Et Ec). }
    split; [exact Hd|].
    unfold first_frame.
    destruct (data (start_processing s1)) as [|v d]; [contradiction|].
    exists v. reflexivity.
Qed.

Lemma decoded_window_nonempty_when_processing_begins_witness :
  exists v,
    first_frame
      (data (start_processing
               (arm_at 3
                  (run_raw (detector := Sample.detector) (Sample.params 1 0)
                     (map decodable
                        [Sample.message 1 10; Sample.message (3 # 2) 20])
                     init))))
    = Ok v.
Proof.
  destruct (@decoded_window_nonempty_when_processing_begins Sample.detector
              (Sample.params 1 0)
              [Sample.message 1 10; Sample.message (3 # 2) 20]
              (corrupt_message 3))
    as (_ & Hproc).
  - reflexivity.
  - repeat constructor.
  - reflexivity.
  - destruct (Hproc eq_refl) as (_ & _ & Hv). exact Hv.
Defined.

(** ** Frames delivered during processing *)

Lemma run_cons {detector : LEDDetector} (parameters : Parameters)
  (m : CompressedImage) (msgs : list CompressedImage) (s : State) :
  run parameters (m :: msgs) s =
  run parameters msgs (snd (deliver parameters m s)).
Proof. reflexivity. Qed.

Lemma run_processing {detector : LEDDetector} (parameters : Parameters)
  (msgs : list CompressedImage) (s : State) :
  sub_cam s = false -> run parameters msgs s = s.
Proof.
  intro Hsub. induction msgs as [|m msgs IH]; [reflexivity|].
  rewrite run_cons, deliver_eq, Hsub. exact IH.
Qed.

(** C1: while [process_and_publish] runs, a delivered frame is dropped: the
    unregistered subscription does not hand it to the callback, and the
    callback, were it invoked, would leave the window and the outcome of the
    processing as they are.  After the result is published, the window is
    reset by the next delivered frame and holds no frame but that one. *)
Theorem frames_dropped_while_processing
  (detector : LEDDetector) (parameters : Parameters) (s : State) :
  processing s ->
  (forall msg, deliver parameters msg s = (Ok tt, s)) /\
  (forall dropped, run parameters dropped s = s) /\
  (forall msg,
     camera_callback parameters msg s = (Ok tt, set_node_state 0 s) /\
     data (set_node_state 0 s) = data s /\
     processing (set_node_state 0 s)) /\
  (forall dropped s' msg,
     process_and_publish parameters (run parameters dropped s) = (Ok tt, s') ->
     first_timestamp (arm msg s') = stamp msg /\
     data (arm msg s') = [] /\
     (data (snd (deliver parameters msg s')) = [] \/
      data (snd (deliver parameters msg s')) = [captured_frame msg]) /\
     ((0 < stamp msg)%Q -> (0 < capture_time parameters)%Q ->
      deliver parameters msg s' = (Ok tt, capture msg (arm msg s')) /\
      data (capture msg (arm msg s')) = [captured_frame msg])).
Proof.
  intros (Hsub & Htr & Hcf & Hft).
  split; [|split; [|split]].
  - intro msg. rewrite deliver_eq, Hsub. reflexivity.
  - intro dropped. apply run_processing, Hsub.
  - intro msg. rewrite camera_callback_eq. cbv zeta.
    unfold arm. rewrite Htr, Hcf.
    cbn [first_timestamp set_node_state]. rewrite Hft.
    split; [reflexivity|]. split; [reflexivity|].
    unfold processing; cbn. auto.
  - intros dropped s' msg.
    rewrite (run_processing parameters dropped s Hsub). intro Hpp.
    apply process_and_publish_returns in Hpp.
    destruct Hpp as (br & bf & bt & t_s & r & f & t & _ & _ & _ & _ & _ & ->).
    rewrite deliver_eq. cbn [sub_cam completed].
    rewrite camera_callback_eq. cbv zeta.
    unfold arm. cbn [trigger completed].
    cbn [first_timestamp set_first_timestamp data set_capture_finished
         set_data capture_finished].
    split; [reflexivity|]. split; [reflexivity|]. split.
    + destruct (Qltb 0 (stamp msg)); [|left; reflexivity].
      destruct (Qltb _ (capture_time parameters)); [right; reflexivity|].
      left. cbn [negb].
      match goal with
      | |- data (snd (process_and_publish _ ?x)) = _ =>
          pose proof (process_and_publish_frame parameters x) as (Hd & _)
      end.
      rewrite Hd. reflexivity.
    + intros Hpos Hct. apply Qltb_lt in Hpos. rewrite Hpos.
      rewrite (rel_time_zero _ Hct). split; reflexivity.
Qed.

Lemma frames_dropped_while_processing_witness :
  run (detector := Sample.detector) (Sample.params 1 0)
    [Sample.message 4 70; Sample.message 5 80]
    (start_processing (capture (Sample.message 1 10)
                         (arm (Sample.message 1 10) init)))
  = start_processing (capture (Sample.message 1 10)
                        (arm (Sample.message 1 10) init)).
Proof.
  destruct (@frames_dropped_while_processing Sample.detector
              (Sample.params 1 0)
              (start_processing (capture (Sample.message 1 10)
                                   (arm (Sample.message 1 10) init))))
    as (_ & Hrun & _).
  - unfold processing; cbn. auto.
  - apply Hrun.
Defined.

(** ** The published detections *)

Lemma left_unknown_deliver {detector : LEDDetector} (parameters : Parameters)
  (msg : CompressedImage) (s : State) :
  Forall left_unknown (pub_detections s) ->
  Forall left_unknown (pub_detections (snd (deliver parameters msg s))).
Proof.
  intro Hall. rewrite deliver_eq.
  destruct (sub_cam s); [|exact Hall].
  rewrite camera_callback_eq. cbv zeta.
  assert (Harm : pub_detections (arm msg s) = pub_detections s).
  { unfold arm. destruct (trigger s); [|destruct (capture_finished s)];
      reflexivity. }
  destruct (Qltb 0 _); [|cbn; rewrite Harm; exact Hall].
  destruct (Qltb _ (capture_time parameters));
    [cbn; rewrite Harm; exact Hall|].
  destruct (capture_finished (arm msg s)); cbn [negb];
    [cbn; rewrite Harm; exact Hall|].
  destruct (process_and_publish parameters (start_processing (arm msg s)))
    as [[[]|e] s'] eqn:E.
  - apply process_and_publish_returns in E.
    destruct E as (br & bf & bt & t_s & r & f & t & _ & _ & _ & _ & _ & ->).
    cbn. rewrite Harm. apply Forall_app. split; [exact Hall|].
    constructor; [reflexivity|constructor].
  - pose proof (process_and_publish_frame parameters
                  (start_processing (arm msg s))) as (_ & _ & _ & Hr).
    rewrite E in Hr. cbn [fst snd] in Hr.
    destruct (Hr e eq_refl) as (_ & _ & Hpub).
    cbn [snd]. rewrite Hpub. cbn. rewrite Harm. exact Hall.
Qed.

Lemma left_unknown_run {detector : LEDDetector} (parameters : Parameters)
  (msgs : list CompressedImage) (s : State) :
  Forall left_unknown (pub_detections s) ->
  Forall left_unknown (pub_detections (run parameters msgs s)).
Proof.
  revert s. induction msgs as [|m msgs IH]; intros s Hs; [exact Hs|].
  cbn. apply IH, left_unknown_deliver, Hs.
Qed.

(** C9: whatever the detector, the parameters and the frames delivered since
    start-up, every published detection has its [left] field equal to
    "UNKNOWN". *)
Theorem published_left_is_unknown
  (detector : LEDDetector) (parameters : Parameters)
  (msgs : list CompressedImage) :
  Forall (fun d => duckietown_msgs.left d = Some "UNKNOWN"%string)
         (pub_detections (run parameters msgs init)).
Proof.
  apply (left_unknown_run parameters msgs). constructor.
Qed.

(** ** Results of processing *)

(** Whether a run returns or raises is decided by the window and the
    parameters alone. *)
Lemma process_and_publish_outcome {detector : LEDDetector}
  (parameters : Parameters) (s : State) :
  fst (process_and_publish parameters s) =
  result_bind (extract_blobs parameters (data s)) (fun b =>
  result_bind (sampling_time (capture_time parameters)
                 (List.length (data s))) (fun t_s =>
  classify_regions b t_s (List.length (data s)))).
Proof.
  unfold process_and_publish, publish, bind, lift, get, modify, ret.
  destruct (extract_blobs parameters (data s)) as [[[br bf] bt]|e];
    [|reflexivity].
  cbn [data set_right set_front set_traffic_light result_bind].
  destruct (sampling_time _ _) as [t_s|e]; [|reflexivity].
  cbn [result_bind classify_regions].
  destruct (interpret_signal br t_s _) as [r|e]; [|reflexivity].
  destruct (interpret_signal bf t_s _) as [f|e]; [|reflexivity].
  destruct (interpret_signal bt t_s _) as [t|e]; reflexivity.
Qed.

(** C5: processing is a function of the captured window and the
    configuration.  Two runs on the same window, whatever the other
    attributes at their start, both raise the same exception or both return
    with the same symbols for right, front, traffic light and left, and
    publish the same detection; this holds in particular for a second run
    on the attributes left by a first one. *)
Theorem process_and_publish_deterministic
  (detector : LEDDetector) (parameters : Parameters) (s1 s2 : State) :
  data s1 = data s2 ->
  fst (process_and_publish parameters s1)
  = fst (process_and_publish parameters s2) /\
  (forall s1',
     process_and_publish parameters s1 = (Ok tt, s1') ->
     exists s2' d,
       process_and_publish parameters s2 = (Ok tt, s2') /\
       right s1' = right s2' /\ front s1' = front s2' /\
       traffic_light s1' = traffic_light s2' /\ left s1' = left s2' /\
       pub_detections s1' = pub_detections s1 ++ [d] /\
       pub_detections s2' = pub_detections s2 ++ [d] /\
       data s1' = data s1 /\
       exists s1'',
         process_and_publish parameters s1' = (Ok tt, s1'') /\
         right s1'' = right s1' /\ front s1'' = front s1' /\
         traffic_light s1'' = traffic_light s1' /\ left s1'' = left s1' /\
         pub_detections s1'' = pub_detections s1' ++ [d]).
Proof.
  intro Hd. split.
  - rewrite !process_and_publish_outcome, Hd. reflexivity.
  - intros s1' Hpp. apply process_and_publish_returns in Hpp.
    destruct Hpp as (br & bf & bt & t_s & r & f & t &
                     He & Hs & Hr & Hf & Ht & ->).
    exists (completed s2 r f t). eexists.
    split.
    { rewrite Hd in He, Hs, Hr, Hf, Ht.
      apply (process_and_publish_complete parameters s2 He Hs Hr Hf Ht). }
    do 4 (split; [reflexivity|]).
    split; [reflexivity|]. split; [reflexivity|]. split; [reflexivity|].
    exists (completed (completed s1 r f t) r f t).
    split; [|repeat split; reflexivity].
    apply (process_and_publish_complete parameters (completed s1 r f t)
             He Hs Hr Hf Ht).
Qed.

Lemma process_and_publish_deterministic_witness :
  fst (process_and_publish (detector := Sample.detector) (Sample.params 1 1)
         (capture (Sample.message 1 10) (arm (Sample.message 1 10) init)))
  = fst (process_and_publish (detector := Sample.detector) (Sample.params 1 1)
           (set_node_state 2
              (set_front (Some "CAR_SIGNAL_B"%string)
                 (capture (Sample.message 1 10)
                    (arm (Sample.message 1 10) init))))).
Proof.
  destruct (@process_and_publish_deterministic Sample.detector
              (Sample.params 1 1)
              (capture (Sample.message 1 10)
                 (arm (Sample.message 1 10) init))
              (set_node_state 2
                 (set_front (Some "CAR_SIGNAL_B"%string)
                    (capture (Sample.message 1 10)
                       (arm (Sample.message 1 10) init)))))
    as (H & _).
  - reflexivity.
  - exact H.
Defined.

(** C7: whenever the blobs of a window have been extracted, the classifier
    is called for right, front and traffic light with the number of frames
    of the window and with a sampling time equal to [capture_time] divided
    by that number; the symbols of a run that returns are the classifier's
    answers to these calls. *)
Theorem sampling_time_is_capture_time_over_num_frames
  (detector : LEDDetector) (parameters : Parameters) (s : State)
  (blobs_right blobs_front blobs_tl : blobs) :
  extract_blobs parameters (data s)
  = Ok (blobs_right, blobs_front, blobs_tl) ->
  let num_img := List.length (data s) in
  exists t_s,
    sampling_time (capture_time parameters) num_img = Ok t_s /\
    (t_s == capture_time parameters / inject_Z (Z.of_nat num_img))%Q /\
    fst (process_and_publish parameters s)
    = classify_regions (blobs_right, blobs_front, blobs_tl) t_s num_img /\
    (forall s',
       process_and_publish parameters s = (Ok tt, s') ->
       interpret_signal blobs_right t_s num_img = Ok (right s') /\
       interpret_signal blobs_front t_s num_img = Ok (front s') /\
       interpret_signal blobs_tl t_s num_img = Ok (traffic_light s')).
Proof.
  intros He num_img.
  assert (Hn : num_img <> 0%nat).
  { pose proof (extract_blobs_nonempty parameters He) as Hne.
    unfold num_img. destruct (data s); [contradiction|discriminate]. }
  destruct (sampling_time_nonempty (capture_time parameters) Hn)
    as (t_s & Hs & Heq).
  exists t_s. split; [exact Hs|]. split; [exact Heq|]. split.
  - rewrite process_and_publish_outcome, He. cbn [result_bind].
    fold num_img. rewrite Hs. reflexivity.
  - intros s' Hpp. apply process_and_publish_returns in Hpp.
    destruct Hpp as (br & bf & bt & t_s' & r & f & t &
                     He' & Hs' & Hr & Hf & Ht & ->).
    rewrite He in He'. inversion He'; subst br bf bt.
    fold num_img in Hs', Hr, Hf, Ht.
    rewrite Hs in Hs'. inversion Hs'; subst t_s'.
    cbn [right front traffic_light completed]. auto.
Qed.

Lemma sampling_time_is_capture_time_over_num_frames_witness :
  exists t_s,
    sampling_time 1 2 = Ok t_s /\ (t_s == 1 / inject_Z 2)%Q.
Proof.
  destruct (@sampling_time_is_capture_time_over_num_frames Sample.detector
              (Sample.params 1 0)
              (capture (Sample.message (3 # 2) 20)
                 (capture (Sample.message 1 10)
                    (arm (Sample.message 1 10) init)))
              2%nat 2%nat 2%nat eq_refl)
    as (t_s & Hs & Heq & _).
  exists t_s. split; [exact Hs | exact Heq].
Defined.

(** ** The guarded classifier *)

Lemma below_nyquist (n c fmax : Q) :
  (0 < c)%Q -> (n / c < 2 * fmax)%Q -> Qltb (2 * fmax * c) n = false.
Proof.
  intros Hc Hlt. apply Qltb_ge.
  apply Qlt_le_weak.
  apply (proj2 (Qmult_lt_r _ _ c Hc)) in Hlt.
  assert (E : (n / c * c == n)%Q).
  { field. intro H. rewrite H in Hc. discriminate Hc. }
  now rewrite E in Hlt.
Qed.

Lemma guarded_unknown_below_nyquist (B : Type) table c classify (b : B)
  t_s (n : nat) :
  (0 < c)%Q ->
  (inject_Z (Z.of_nat n) / c < 2 * highest_frequency table)%Q ->
  guarded_interpret_signal table c classify b t_s n = Ok (Some UNKNOWN).
Proof.
  intros Hc Hlt. unfold guarded_interpret_signal.
  destruct (n <? 2)%nat; [reflexivity|].
  now rewrite (below_nyquist Hc Hlt).
Qed.

(** C4: with the classifier guarded as specified, a window whose frame
    count divided by [capture_time] is below twice the highest protocol
    frequency is processed to "UNKNOWN" for right, front and traffic light,
    whatever the unguarded classifier would answer. *)
Theorem nyquist_violation_reports_unknown
  (det : LEDDetector) (table : list ProtocolEntry) (parameters : Parameters)
  (s : State) (blobs_right blobs_front blobs_tl : @blobs det) :
  (0 < capture_time parameters)%Q ->
  extract_blobs (detector := det) parameters (data s)
  = Ok (blobs_right, blobs_front, blobs_tl) ->
  (inject_Z (Z.of_nat (List.length (data s))) / capture_time parameters
   < 2 * highest_frequency table)%Q ->
  process_and_publish
    (detector := guarded_detector table (capture_time parameters) det)
    parameters s
  = (Ok tt, completed s (Some UNKNOWN) (Some UNKNOWN) (Some UNKNOWN)).
Proof.
  intros Hc He Hlt.
  assert (Hn : List.length (data s) <> 0%nat).
  { pose proof (extract_blobs_nonempty (detector := det) parameters He).
    destruct (data s); [contradiction|discriminate]. }
  destruct (sampling_time_nonempty (capture_time parameters) Hn)
    as (t_s & Hs & _).
  apply (process_and_publish_complete
           (detector := guarded_detector table (capture_time parameters) det)
           parameters s (br := blobs_right) (bf := blobs_front)
           (bt := blobs_tl) (t_s := t_s)).
  - exact He.
  - exact Hs.
  - apply guarded_unknown_below_nyquist; assumption.
  - apply guarded_unknown_below_nyquist; assumption.
  - apply guarded_unknown_below_nyquist; assumption.
Qed.

Lemma nyquist_violation_reports_unknown_witness :
  right
    (snd (process_and_publish
            (detector := guarded_detector Sample.table 1 Sample.detector)
            (Sample.params 1 0)
            (run (detector := Sample.detector) (Sample.params 1 0)
               [Sample.message 1 10; Sample.message (5 # 4) 20;
                Sample.message (3 # 2) 30; Sample.message (7 # 4) 40]
               init)))
  = Some UNKNOWN.
Proof.
  assert (H := @nyquist_violation_reports_unknown Sample.detector
                 Sample.table (Sample.params 1 0)
                 (run (detector := Sample.detector) (Sample.params 1 0)
                    [Sample.message 1 10; Sample.message (5 # 4) 20;
                     Sample.message (3 # 2) 30; Sample.message (7 # 4) 40]
                    init)
                 4%nat 4%nat 4%nat
                 ltac:(reflexivity) ltac:(reflexivity) ltac:(reflexivity)).
  exact (f_equal (fun r => right (snd r)) H).
Defined.

(** C8, as stated, fails on the empty window: with [capture_time] 0 the
    first frame delivered closes a window of no frame, and processing
    raises at [self.data[0]]. *)
Lemma empty_window_processing_raises :
  (List.length (data (start_processing (arm (Sample.message 1 10) init)))
   < 2)%nat /\
  deliver (detector := guarded_detector Sample.table 0 Sample.detector)
    (Sample.params 0 0) (Sample.message 1 10) init
  = (Raise IndexError, start_processing (arm (Sample.message 1 10) init)).
Proof.
  split; [cbn; lia|reflexivity].
Qed.

(** C8 (as the code has it): a window of exactly one frame on which blob
    extraction succeeds is processed to completion, and the classifier
    guarded as specified reports "UNKNOWN" for right, front and traffic
    light; a window of no frame makes processing raise [IndexError]. *)
Theorem single_frame_window_reports_unknown
  (det : LEDDetector) (table : list ProtocolEntry) (parameters : Parameters)
  (s : State) :
  (forall (v : Frame) (blobs_right blobs_front blobs_tl : @blobs det),
     data s = [v] ->
     extract_blobs (detector := det) parameters (data s)
     = Ok (blobs_right, blobs_front, blobs_tl) ->
     process_and_publish
       (detector := guarded_detector table (capture_time parameters) det)
       parameters s
     = (Ok tt, completed s (Some UNKNOWN) (Some UNKNOWN) (Some UNKNOWN))) /\
  (data s = [] ->
   process_and_publish
     (detector := guarded_detector table (capture_time parameters) det)
     parameters s
   = (Raise IndexError, s)).
Proof.
  split.
  - intros v br bf bt Hd He.
    apply (process_and_publish_complete
             (detector := guarded_detector table (capture_time parameters) det)
             parameters s (br := br) (bf := bf) (bt := bt)
             (t_s := (1 * capture_time parameters / (1 * inject_Z 1))%Q)).
    + exact He.
    + rewrite Hd. reflexivity.
    + rewrite Hd. reflexivity.
    + rewrite Hd. reflexivity.
    + rewrite Hd. reflexivity.
  - apply process_and_publish_empty.
Qed.

Lemma single_frame_window_reports_unknown_witness :
  process_and_publish
    (detector := guarded_detector Sample.table 1 Sample.detector)
    (Sample.params 1 1)
    (capture (Sample.message 1 10) (arm (Sample.message 1 10) init))
  = (Ok tt,
     completed (capture (Sample.message 1 10) (arm (Sample.message 1 10) init))
       (Some UNKNOWN) (Some UNKNOWN) (Some UNKNOWN)).
Proof.
  destruct (@single_frame_window_reports_unknown Sample.detector Sample.table
              (Sample.params 1 1)
              (capture (Sample.message 1 10)
                 (arm (Sample.message 1 10) init)))
    as (Hone & _).
  apply (Hone (captured_frame (Sample.message 1 10)) 1%nat 1%nat 1%nat);
    reflexivity.
Defined.

(** * Further properties of the node *)

(** ** Stacking *)

Lemma fill_images_spec (h w : nat) (vs : list Frame) :
  forall (i : nat) (images : ndarray3),
    if forallb (fun v => broadcastable h w (rgb v)) vs then
      exists images',
        fill_images h w vs i images = Ok images' /\
        shape3 images' = shape3 images /\
        forall r c k,
          at3 images' r c k =
          match nth_error vs (k - i) with
          | Some v =>
              if (i <=? k)%nat then broadcast_at h w (rgb v) r c
              else at3 images r c k
          | None => at3 images r c k
          end
    else fill_images h w vs i images = Raise ValueError.
Proof.
  induction vs as [|v vs IH]; intros i images.
  - cbn. exists images. repeat split.
    intros r c k. destruct (k - i)%nat; reflexivity.
  - cbn [forallb fill_images]. unfold set_plane.
    destruct (broadcastable h w (rgb v)) eqn:Eb; cbn [andb result_bind];
      [|reflexivity].
    specialize (IH (S i)
      {| shape3 := shape3 images;
         at3 := fun r c k =>
                  if (k =? i)%nat then broadcast_at h w (rgb v) r c
                  else at3 images r c k |}).
    destruct (forallb _ vs); [|exact IH].
    destruct IH as (images' & Hf & Hs & Hat).
    exists images'. split; [exact Hf|]. split; [exact Hs|].
    intros r c k. rewrite Hat. cbn [at3].
    destruct (Nat.leb_spec i k) as [Hik|Hik].
    + destruct (Nat.eq_dec k i) as [->|Hne].
      * rewrite Nat.sub_diag. cbn [nth_error].
        replace (i - S i)%nat with 0%nat by lia.
        destruct (Nat.leb_spec (S i) i); [lia|].
        rewrite Nat.eqb_refl.
        destruct vs; reflexivity.
      * replace (k - i)%nat with (S (k - S i)) by lia. cbn [nth_error].
        destruct (Nat.leb_spec (S i) k); [|lia].
        destruct (nth_error vs (k - S i)); [reflexivity|].
        destruct (Nat.eqb_spec k i); [lia|reflexivity].
    + replace (k - S i)%nat with 0%nat by lia.
      replace (k - i)%nat with 0%nat by lia. cbn [nth_error].
      destruct (Nat.leb_spec (S i) k); [lia|].
      destruct (Nat.eqb_spec k i); [lia|].
      destruct vs; reflexivity.
Qed.

Lemma stack_images_cons (v0 : Frame) (d : list Frame) :
  stack_images (v0 :: d) =
  fill_images (fst (shape2 (rgb v0))) (snd (shape2 (rgb v0))) (v0 :: d) 0
    (zeros3 (fst (shape2 (rgb v0))) (snd (shape2 (rgb v0)))
            (List.length (v0 :: d))).
Proof.
  unfold stack_images, first_frame. cbn [nth_error result_bind].
  destruct (shape2 (rgb v0)) as [h w]. reflexivity.
Qed.

Lemma broadcast_at_same_shape (h w : nat) (a : ndarray2) (i j : nat) :
  shape2 a = (h, w) -> broadcast_at h w a i j = at2 a i j.
Proof.
  intro Hs. unfold broadcast_at. rewrite Hs, !Nat.eqb_refl. reflexivity.
Qed.

(** X1: the stacked volume has the height and width of the first frame and
    one plane per frame of the window, in order; plane [k] holds the pixels
    of frame [k] (broadcast when its shape differs from the first one). *)
Theorem stack_images_planes (d : list Frame) (images : ndarray3) :
  stack_images d = Ok images ->
  exists v0 d',
    d = v0 :: d' /\
    shape3 images
    = (fst (shape2 (rgb v0)), snd (shape2 (rgb v0)), List.length d) /\
    forall k v,
      nth_error d k = Some v ->
      (forall r c,
         at3 images r c k =
         broadcast_at (fst (shape2 (rgb v0))) (snd (shape2 (rgb v0)))
                      (rgb v) r c) /\
      (shape2 (rgb v) = shape2 (rgb v0) ->
       forall r c, at3 images r c k = at2 (rgb v) r c).
Proof.
  destruct d as [|v0 d']; [discriminate|].
  rewrite stack_images_cons. intro Hst.
  exists v0, d'. split; [reflexivity|].
  pose proof (fill_images_spec (fst (shape2 (rgb v0)))
                (snd (shape2 (rgb v0))) (v0 :: d') 0
                (zeros3 (fst (shape2 (rgb v0))) (snd (shape2 (rgb v0)))
                        (List.length (v0 :: d')))) as Hspec.
  destruct (forallb _ (v0 :: d')); [|congruence].
  destruct Hspec as (images' & Hf & Hs & Hat).
  rewrite Hf in Hst. inversion Hst; subst images'.
  split; [exact Hs|].
  intros k v Hk.
  assert (Hbc : forall r c,
             at3 images r c k =
             broadcast_at (fst (shape2 (rgb v0))) (snd (shape2 (rgb v0)))
                          (rgb v) r c).
  { intros r c. rewrite Hat, Nat.sub_0_r, Hk. reflexivity. }
  split; [exact Hbc|].
  intros Hshape r c. rewrite Hbc.
  apply broadcast_at_same_shape.
  rewrite Hshape. destruct (shape2 (rgb v0)); reflexivity.
Qed.

Lemma stack_images_planes_witness :
  exists images,
    stack_images [captured_frame (Sample.message 1 10);
                  captured_frame (Sample.message 2 20)] = Ok images /\
    shape3 images = (4, 4, 2)%nat /\
    at3 images 1 1 1 = 235.
Proof.
  eexists. split; [reflexivity|].
  destruct (@stack_images_planes
              [captured_frame (Sample.message 1 10);
               captured_frame (Sample.message 2 20)] _ eq_refl)
    as (v0 & d' & Hd & Hshape & Hat).
  inversion Hd; subst v0 d'. split; [exact Hshape|].
  destruct (Hat 1%nat (captured_frame (Sample.message 2 20)) eq_refl)
    as (_ & Hsame).
  rewrite (Hsame eq_refl). reflexivity.
Defined.

(** X2: stacking raises [IndexError] exactly on the empty window, raises
    [ValueError] exactly when some frame cannot be assigned to a plane of
    the first frame's shape, and returns otherwise. *)
Theorem stack_images_outcome (d : list Frame) :
  (stack_images d = Raise IndexError <-> d = []) /\
  (stack_images d = Raise ValueError <-> d <> [] /\ stackable d = false) /\
  ((exists images, stack_images d = Ok images) <-> stackable d = true).
Proof.
  destruct d as [|v0 d'].
  - cbn. repeat split; try discriminate; try reflexivity.
    + intros [H _]. contradiction.
    + intros [images H]. discriminate.
  - rewrite stack_images_cons. unfold stackable.
    pose proof (fill_images_spec (fst (shape2 (rgb v0)))
                  (snd (shape2 (rgb v0))) (v0 :: d') 0
                  (zeros3 (fst (shape2 (rgb v0))) (snd (shape2 (rgb v0)))
                          (List.length (v0 :: d')))) as Hspec.
    destruct (forallb _ (v0 :: d')).
    + destruct Hspec as (images' & Hf & _). rewrite Hf.
      repeat split; try discriminate.
      * intros [_ H]. discriminate.
      * exists images'. reflexivity.
    + rewrite Hspec. repeat split; try discriminate.
      intros [images H]. discriminate.
Qed.

(** ** Capture cycles *)

Lemma deliver_capturing {detector : LEDDetector} (parameters : Parameters)
  (msg : CompressedImage) (s : State) :
  capturing s ->
  deliver parameters msg s =
  if Qltb (stamp msg - first_timestamp s) (capture_time parameters)
  then (Ok tt, capture msg s)
  else process_and_publish parameters (start_processing s).
Proof.
  intros (Htr & Hcf & Hsub & Hft).
  rewrite deliver_eq, Hsub, camera_callback_eq. cbv zeta.
  assert (Harm : arm msg s = s) by (unfold arm; now rewrite Htr, Hcf).
  rewrite Harm, Hft, Hcf. reflexivity.
Qed.

Lemma deliver_armed {detector : LEDDetector} (parameters : Parameters)
  (msg : CompressedImage) (s : State) :
  trigger s = true -> sub_cam s = true ->
  (0 < stamp msg)%Q -> (0 < capture_time parameters)%Q ->
  deliver parameters msg s = (Ok tt, capture msg (arm msg s)) /\
  capturing (capture msg (arm msg s)) /\
  data (capture msg (arm msg s)) = [captured_frame msg] /\
  first_timestamp (capture msg (arm msg s)) = stamp msg /\
  pub_detections (capture msg (arm msg s)) = pub_detections s.
Proof.
  intros Htr Hsub Hpos Hct. apply Qltb_lt in Hpos.
  rewrite deliver_eq, Hsub, camera_callback_eq. cbv zeta.
  unfold arm. rewrite Htr. cbn [first_timestamp set_first_timestamp].
  rewrite Hpos, (rel_time_zero _ Hct).
  unfold capturing; cbn. rewrite Hsub. repeat split; assumption.
Qed.

Lemma run_capturing {detector : LEDDetector} (parameters : Parameters)
  (ms : list CompressedImage) :
  forall w : State,
    capturing w ->
    Forall (fun m => (stamp m - first_timestamp w
                      < capture_time parameters)%Q) ms ->
    capturing (run parameters ms w) /\
    data (run parameters ms w) = data w ++ map captured_frame ms /\
    first_timestamp (run parameters ms w) = first_timestamp w /\
    pub_detections (run parameters ms w) = pub_detections w.
Proof.
  induction ms as [|m ms IH]; intros w Hw Hall.
  - cbn. rewrite app_nil_r. auto.
  - inversion Hall as [|? ? Hm Hms]; subst.
    rewrite run_cons, (deliver_capturing parameters m Hw).
    apply Qltb_lt in Hm. rewrite Hm. cbn [snd].
    assert (Hc : capturing (capture m w)).
    { destruct Hw as (? & ? & ? & ?). unfold capturing; cbn. auto. }
    destruct (IH (capture m w) Hc Hms) as (H1 & H2 & H3 & H4).
    split; [exact H1|]. rewrite H2, H3, H4.
    cbn. rewrite <- app_assoc. auto.
Qed.

(** X3: a whole capture cycle.  From an armed node, a frame with a positive
    stamp followed by frames less than [capture_time] later are all
    buffered, in order; the first frame at or beyond [capture_time] makes
    the node process exactly these frames. *)
Theorem capture_cycle
  (detector : LEDDetector) (parameters : Parameters) (s : State)
  (m0 : CompressedImage) (ms : list CompressedImage)
  (mend : CompressedImage) :
  trigger s = true -> sub_cam s = true ->
  (0 < stamp m0)%Q -> (0 < capture_time parameters)%Q ->
  Forall (fun m => (stamp m - stamp m0 < capture_time parameters)%Q) ms ->
  ~ (stamp mend - stamp m0 < capture_time parameters)%Q ->
  let w := run parameters (m0 :: ms) s in
  data w = map captured_frame (m0 :: ms) /\
  first_timestamp w = stamp m0 /\
  pub_detections w = pub_detections s /\
  deliver parameters mend w
  = process_and_publish parameters (start_processing w) /\
  data (start_processing w) = map captured_frame (m0 :: ms) /\
  run parameters (m0 :: ms ++ [mend]) s
  = snd (process_and_publish parameters (start_processing w)).
Proof.
  intros Htr Hsub Hpos Hct Hall Hend w.
  destruct (deliver_armed parameters m0 s Htr Hsub Hpos Hct)
    as (Hd & Hcap & Hdata & Hft & Hpub).
  assert (Hw : w = run parameters ms (capture m0 (arm m0 s))).
  { unfold w. rewrite run_cons, Hd. reflexivity. }
  assert (Hall' : Forall (fun m => (stamp m
                     - first_timestamp (capture m0 (arm m0 s))
                     < capture_time parameters)%Q) ms).
  { rewrite Hft. exact Hall. }
  destruct (@run_capturing detector parameters ms _ Hcap Hall')
    as (Hc & Hdat & Hft' & Hpub').
  rewrite <- Hw in Hc, Hdat, Hft', Hpub'.
  rewrite Hdata in Hdat. rewrite Hft in Hft'. rewrite Hpub in Hpub'.
  assert (Hdel : deliver parameters mend w
                 = process_and_publish parameters (start_processing w)).
  { rewrite (deliver_capturing parameters mend Hc), Hft'.
    destruct (Qltb (stamp mend - stamp m0) (capture_time parameters)) eqn:E;
      [|reflexivity].
    apply Qltb_lt in E. contradiction. }
  split; [exact Hdat|]. split; [exact Hft'|]. split; [exact Hpub'|].
  split; [exact Hdel|]. split; [exact Hdat|].
  change (m0 :: ms ++ [mend]) with ((m0 :: ms) ++ [mend]).
  unfold run at 1. rewrite fold_left_app. fold (run parameters (m0 :: ms) s).
  fold w. cbn [fold_left]. rewrite Hdel. reflexivity.
Qed.

Lemma capture_cycle_witness :
  data (run (detector := Sample.detector) (Sample.params 1 0)
          [Sample.message 10 1; Sample.message (21 # 2) 2] init)
  = [captured_frame (Sample.message 10 1);
     captured_frame (Sample.message (21 # 2) 2)].
Proof.
  destruct (@capture_cycle Sample.detector (Sample.params 1 0) init
              (Sample.message 10 1) [Sample.message (21 # 2) 2]
              (Sample.message 11 3))
    as (Hdata & _).
  - reflexivity.
  - reflexivity.
  - reflexivity.
  - reflexivity.
  - repeat constructor.
  - intro H. discriminate H.
  - exact Hdata.
Defined.

(** ** The span of a window *)






(** ** Runs that stop *)

Lemma arm_at_keeps (t : Q) (s : State) :
  pub_detections (arm_at t s) = pub_detections s /\
  sub_cam (arm_at t s) = sub_cam s.
Proof.
  unfold arm_at.
  destruct (trigger s); [|destruct (capture_finished s)]; split; reflexivity.
Qed.

(** X5: a delivery raises in one of two ways, and in both nothing is
    published.  Either the image fails to decode in the capturing branch:
    then the frame is not buffered and the subscription stays registered.
    Or [process_and_publish] raises: then the subscription is left
    unregistered, and the frames delivered afterwards change nothing. *)
Theorem delivery_exception_is_decode_or_processing
  (detector : LEDDetector) (parameters : Parameters) (s : State)
  (msg : CameraMessage) (e : exn) :
  fst (deliver_raw parameters msg s) = Raise e ->
  pub_detections (snd (deliver_raw parameters msg s)) = pub_detections s /\
  ((decode msg = Raise e /\
    deliver_raw parameters msg s
    = (Raise e, set_node_state 1 (arm_at (header_stamp msg) s)) /\
    data (snd (deliver_raw parameters msg s))
    = data (arm_at (header_stamp msg) s) /\
    sub_cam (snd (deliver_raw parameters msg s)) = true) \/
   (deliver_raw parameters msg s
    = process_and_publish parameters
        (start_processing (arm_at (header_stamp msg) s)) /\
    sub_cam (snd (deliver_raw parameters msg s)) = false /\
    forall later,
      run_raw parameters later (snd (deliver_raw parameters msg s))
      = snd (deliver_raw parameters msg s))).
Proof.
  rewrite deliver_raw_eq.
  destruct (sub_cam s) eqn:Hsub0; [|discriminate].
  rewrite camera_callback_raw_eq. cbv zeta.
  destruct (arm_at_keeps (header_stamp msg) s) as [Hpub Hsub].
  destruct (Qltb 0 _); [|discriminate].
  destruct (Qltb _ (capture_time parameters)).
  - destruct (decode msg) as [g|e0]; [discriminate|].
    cbn [fst snd]. intro He. inversion He; subst e0.
    split; [cbn; exact Hpub|]. left.
    split; [reflexivity|]. split; [reflexivity|]. split; [reflexivity|].
    cbn. rewrite Hsub. exact Hsub0.
  - destruct (capture_finished (arm_at (header_stamp msg) s));
      [discriminate|].
    cbn [negb]. intro Hr.
    pose proof (process_and_publish_frame parameters
                  (start_processing (arm_at (header_stamp msg) s)))
      as (_ & _ & _ & Hfr).
    destruct (Hfr e Hr) as (_ & Hsub' & Hpub').
    assert (Hs : sub_cam (snd (process_and_publish parameters
                   (start_processing (arm_at (header_stamp msg) s))))
                 = false).
    { rewrite Hsub'. reflexivity. }
    split; [rewrite Hpub'; cbn; exact Hpub|]. right.
    split; [reflexivity|]. split; [exact Hs|].
    intro later. apply run_raw_unsubscribed, Hs.
Qed.

Lemma delivery_exception_is_decode_or_processing_witness :
  pub_detections
    (snd (deliver_raw (detector := Sample.detector) (Sample.params 1 0)
            (corrupt_message 1) init))
  = pub_detections init /\
  pub_detections
    (snd (deliver_raw (detector := Sample.detector) (Sample.params 0 0)
            (decodable (Sample.message 1 10)) init))
  = pub_detections init.
Proof.
  split.
  - destruct (@delivery_exception_is_decode_or_processing Sample.detector
                (Sample.params 1 0) init (corrupt_message 1) InputError
                eq_refl) as (Hpub & _).
    exact Hpub.
  - destruct (@delivery_exception_is_decode_or_processing Sample.detector
                (Sample.params 0 0) init (decodable (Sample.message 1 10))
                IndexError eq_refl) as (Hpub & _).
    exact Hpub.
Defined.

(** X6: a frame whose stamp is not positive, delivered to an armed node,
    consumes the trigger without opening a window; no later frame is
    captured and nothing is published any more. *)
Theorem non_positive_stamp_stalls_node
  (detector : LEDDetector) (parameters : Parameters) (s : State)
  (msg : CompressedImage) :
  trigger s = true -> sub_cam s = true -> (stamp msg <= 0)%Q ->
  deliver parameters msg s = (Ok tt, arm msg s) /\
  data (arm msg s) = [] /\
  pub_detections (arm msg s) = pub_detections s /\
  forall later, run parameters later (arm msg s) = arm msg s.
Proof.
  intros Htr Hsub Hle. apply Qltb_ge in Hle.
  assert (Harm : arm msg s =
                 set_first_timestamp (stamp msg)
                   (set_capture_finished false
                      (set_data [] (set_trigger false s)))).
  { unfold arm. rewrite Htr. reflexivity. }
  split; [|split; [|split]].
  - rewrite deliver_eq, Hsub, camera_callback_eq. cbv zeta.
    rewrite Harm at 1. cbn [first_timestamp set_first_timestamp].
    rewrite Hle. reflexivity.
  - rewrite Harm. reflexivity.
  - rewrite Harm. reflexivity.
  - intro later. induction later as [|m later IH]; [reflexivity|].
    rewrite run_cons, deliver_eq.
    replace (sub_cam (arm msg s)) with true by (rewrite Harm; cbn; congruence).
    rewrite camera_callback_eq. cbv zeta.
    assert (Hid : arm m (arm msg s) = arm msg s).
    { rewrite Harm. reflexivity. }
    rewrite Hid.
    replace (Qltb 0 (first_timestamp (arm msg s))) with false
      by (rewrite Harm; cbn; congruence).
    exact IH.
Qed.

Lemma non_positive_stamp_stalls_node_witness :
  run (detector := Sample.detector) (Sample.params 1 0)
    [Sample.message 10 2; Sample.message 12 3]
    (arm (Sample.message 0 1) init)
  = arm (Sample.message 0 1) init.
Proof.
  destruct (@non_positive_stamp_stalls_node Sample.detector
              (Sample.params 1 0) init (Sample.message 0 1))
    as (_ & _ & _ & Hrun).
  - reflexivity.
  - reflexivity.
  - intro H. discriminate H.
  - apply Hrun.
Defined.

(** ** Windows are independent *)

Lemma arm_control (msg : CompressedImage) (s1 s2 : State) :
  control s1 = control s2 ->
  control (arm msg s1) = control (arm msg s2) /\
  pub_detections (arm msg s1) = pub_detections s1 /\
  pub_detections (arm msg s2) = pub_detections s2.
Proof.
  unfold control. intro H. inversion H as [[Hft Hcf Htr Hd Hsub]].
  unfold arm. rewrite Htr, Hcf.
  destruct (trigger s2) eqn:Et; [|destruct (capture_finished s2) eqn:Ec];
    cbn; repeat split; congruence.
Qed.

Lemma process_and_publish_control {detector : LEDDetector}
  (parameters : Parameters) (a1 a2 : State) :
  control a1 = control a2 ->
  fst (process_and_publish parameters a1)
  = fst (process_and_publish parameters a2) /\
  control (snd (process_and_publish parameters a1))
  = control (snd (process_and_publish parameters a2)) /\
  exists l,
    pub_detections (snd (process_and_publish parameters a1))
    = pub_detections a1 ++ l /\
    pub_detections (snd (process_and_publish parameters a2))
    = pub_detections a2 ++ l.
Proof.
  unfold control. intro H. inversion H as [[Hft Hcf Htr Hd Hsub]].
  assert (Hfst : fst (process_and_publish parameters a1)
                 = fst (process_and_publish parameters a2)).
  { rewrite !process_and_publish_outcome, Hd. reflexivity. }
  split; [exact Hfst|].
  destruct (process_and_publish parameters a1) as [[[]|e] s1'] eqn:E1.
  - apply process_and_publish_returns in E1.
    destruct E1 as (br & bf & bt & t_s & r & f & t &
                    He & Hs & Hr & Hf & Ht & ->).
    rewrite Hd in He, Hs, Hr, Hf, Ht.
    rewrite (@process_and_publish_complete detector parameters a2
               br bf bt t_s r f t He Hs Hr Hf Ht).
    cbn. split; [congruence|]. eexists. split; reflexivity.
  - cbn [fst] in Hfst. symmetry in Hfst.
    pose proof (process_and_publish_frame parameters a1) as F1.
    pose proof (process_and_publish_frame parameters a2) as F2.
    rewrite E1 in F1. cbn [fst snd] in F1.
    destruct F1 as (D1 & T1 & C1 & R1).
    destruct (R1 e eq_refl) as (Tr1 & S1 & P1).
    destruct F2 as (D2 & T2 & C2 & R2).
    destruct (R2 e Hfst) as (Tr2 & S2 & P2).
    cbn [snd]. rewrite D1, T1, C1, Tr1, S1, D2, T2, C2, Tr2, S2.
    split; [congruence|].
    exists []. rewrite !app_nil_r. auto.
Qed.

Lemma deliver_control {detector : LEDDetector} (parameters : Parameters)
  (msg : CompressedImage) (s1 s2 : State) :
  control s1 = control s2 ->
  fst (deliver parameters msg s1) = fst (deliver parameters msg s2) /\
  control (snd (deliver parameters msg s1))
  = control (snd (deliver parameters msg s2)) /\
  exists l,
    pub_detections (snd (deliver parameters msg s1))
    = pub_detections s1 ++ l /\
    pub_detections (snd (deliver parameters msg s2))
    = pub_detections s2 ++ l.
Proof.
  intro H.
  assert (Hsub : sub_cam s1 = sub_cam s2).
  { unfold control in H. congruence. }
  rewrite !deliver_eq, Hsub.
  destruct (sub_cam s2).
  2:{ cbn. split; [reflexivity|]. split; [exact H|].
      exists []. rewrite !app_nil_r. auto. }
  rewrite !camera_callback_eq. cbv zeta.
  destruct (arm_control msg H) as (Ha & P1 & P2).
  assert (Hft : first_timestamp (arm msg s1) = first_timestamp (arm msg s2)).
  { unfold control in Ha. congruence. }
  assert (Hcf : capture_finished (arm msg s1)
                = capture_finished (arm msg s2)).
  { unfold control in Ha. congruence. }
  rewrite Hft, Hcf.
  destruct (Qltb 0 (first_timestamp (arm msg s2))).
  2:{ cbn [fst snd]. split; [reflexivity|]. split; [exact Ha|].
      exists []. rewrite P1, P2, !app_nil_r. auto. }
  destruct (Qltb _ (capture_time parameters)).
  { cbn [fst snd]. split; [reflexivity|]. split.
    - unfold control in *. cbn. congruence.
    - exists []. cbn. rewrite P1, P2, !app_nil_r. auto. }
  destruct (capture_finished (arm msg s2)); cbn [negb].
  { cbn [fst snd]. split; [reflexivity|]. split; [exact Ha|].
    exists []. rewrite P1, P2, !app_nil_r. auto. }
  assert (Hs : control (start_processing (arm msg s1))
               = control (start_processing (arm msg s2))).
  { unfold control in *. cbn. congruence. }
  destruct (@process_and_publish_control detector parameters _ _ Hs)
    as (Hfst & Hc & l & L1 & L2).
  split; [exact Hfst|]. split; [exact Hc|].
  exists l. rewrite L1, L2. cbn. rewrite P1, P2. auto.
Qed.

Lemma run_control {detector : LEDDetector} (parameters : Parameters)
  (msgs : list CompressedImage) :
  forall s1 s2 : State,
    control s1 = control s2 ->
    control (run parameters msgs s1) = control (run parameters msgs s2) /\
    exists l,
      pub_detections (run parameters msgs s1) = pub_detections s1 ++ l /\
      pub_detections (run parameters msgs s2) = pub_detections s2 ++ l.
Proof.
  induction msgs as [|m msgs IH]; intros s1 s2 H.
  - cbn. split; [exact H|]. exists []. rewrite !app_nil_r. auto.
  - rewrite !run_cons.
    destruct (@deliver_control detector parameters m _ _ H) as (_ & Hc & l & L1 & L2).
    destruct (IH _ _ Hc) as (Hc' & l' & L1' & L2').
    split; [exact Hc'|].
    exists (l ++ l'). rewrite L1', L2', L1, L2, !app_assoc. auto.
Qed.

(** X7: each window is analysed independently of what came before.  Two
    armed nodes that receive the same frames buffer the same windows and
    publish the same detections from then on, whatever detections, symbols,
    [node_state] and previous window they started with. *)
Theorem armed_runs_agree
  (detector : LEDDetector) (parameters : Parameters) (s1 s2 : State)
  (m : CompressedImage) (msgs : list CompressedImage) :
  trigger s1 = true -> trigger s2 = true ->
  sub_cam s1 = true -> sub_cam s2 = true ->
  control (run parameters (m :: msgs) s1)
  = control (run parameters (m :: msgs) s2) /\
  exists l,
    pub_detections (run parameters (m :: msgs) s1) = pub_detections s1 ++ l /\
    pub_detections (run parameters (m :: msgs) s2) = pub_detections s2 ++ l.
Proof.
  intros T1 T2 S1 S2.
  set (a1 := set_data (data s2) (set_first_timestamp (first_timestamp s2)
               (set_capture_finished (capture_finished s2) s1))).
  assert (Ha : control a1 = control s2).
  { unfold control, a1; cbn. congruence. }
  assert (H1 : deliver parameters m s1 = deliver parameters m a1).
  { rewrite !deliver_eq. unfold a1 at 1. cbn [sub_cam set_data
      set_first_timestamp set_capture_finished]. rewrite S1.
    rewrite !camera_callback_eq. cbv zeta.
    assert (Harm : arm m s1 = arm m a1).
    { unfold arm, a1. cbn. rewrite T1. reflexivity. }
    rewrite Harm. reflexivity. }
  rewrite (run_cons parameters m msgs s1), H1, <- run_cons.
  destruct (@run_control detector parameters (m :: msgs) a1 s2 Ha)
    as (Hc & l & L1 & L2).
  split; [exact Hc|]. exists l. split; [|exact L2].
  rewrite L1. reflexivity.
Qed.

Lemma armed_runs_agree_witness :
  exists l,
    pub_detections
      (run (detector := Sample.detector) (Sample.params 1 0)
         [Sample.message 10 1; Sample.message 12 2] init)
    = pub_detections init ++ l /\
    pub_detections
      (run (detector := Sample.detector) (Sample.params 1 0)
         [Sample.message 10 1; Sample.message 12 2]
         (completed init (Some "CAR_SIGNAL_B"%string) None None))
    = pub_detections (completed init (Some "CAR_SIGNAL_B"%string) None None)
      ++ l.
Proof.
  destruct (@armed_runs_agree Sample.detector (Sample.params 1 0) init
              (completed init (Some "CAR_SIGNAL_B"%string) None None)
              (Sample.message 10 1) [Sample.message 12 2]
              eq_refl eq_refl eq_refl eq_refl)
    as (_ & l & L1 & L2).
  exists l. split; [exact L1 | exact L2].
Defined.

(** ** How often the node publishes *)

Lemma pending_le_1 (s : State) : (pending s <= 1)%nat.
Proof.
  unfold pending.
  destruct (trigger s), (capture_finished s), (data s); lia.
Qed.

Lemma publish_budget_deliver {detector : LEDDetector}
  (parameters : Parameters) (msg : CompressedImage) (s : State) :
  (2 * List.length (pub_detections (snd (deliver parameters msg s)))
   + pending (snd (deliver parameters msg s))
   <= 2 * List.length (pub_detections s) + pending s + 1)%nat.
Proof.
  rewrite deliver_eq. destruct (sub_cam s); [|cbn [snd]; lia].
  rewrite camera_callback_eq. cbv zeta.
  assert (Harm : pub_detections (arm msg s) = pub_detections s /\
                 (pending (arm msg s) <= pending s)%nat /\
                 trigger (arm msg s) = false /\
                 (trigger s = true -> data (arm msg s) = [])).
  { unfold arm, pending.
    destruct (trigger s) eqn:Et; [|destruct (capture_finished s) eqn:Ec];
      cbn; rewrite ?Et, ?Ec; repeat split; try lia; congruence. }
  destruct Harm as (Hpub & Hpend & Htr & Hempty).
  destruct (Qltb 0 _); [|cbn [snd]; rewrite Hpub; lia].
  destruct (Qltb _ (capture_time parameters)).
  { cbn [snd]. pose proof (pending_le_1 (capture msg (arm msg s))).
    change (pub_detections (capture msg (arm msg s)))
      with (pub_detections (arm msg s)).
    rewrite Hpub. lia. }
  destruct (capture_finished (arm msg s)) eqn:Hcf; cbn [negb].
  { cbn [snd]. rewrite Hpub. lia. }
  destruct (process_and_publish parameters (start_processing (arm msg s)))
    as [[[]|e] s'] eqn:E.
  - apply process_and_publish_returns in E.
    destruct E as (br & bf & bt & t_s & r & f & t & He & _ & _ & _ & _ & ->).
    apply extract_blobs_nonempty in He.
    change (data (start_processing (arm msg s))) with (data (arm msg s)) in He.
    assert (Hp : pending s = 1%nat).
    { destruct (trigger s) eqn:Et.
      - exfalso. apply He, Hempty. reflexivity.
      - revert Hcf He. unfold arm, pending. rewrite Et.
        destruct (capture_finished s) eqn:Ec; cbn; [congruence|].
        intros _ Hd. destruct (data s); [contradiction|reflexivity]. }
    cbn [snd]. unfold pending at 1. cbn [trigger completed pub_detections].
    rewrite length_app. cbn [List.length start_processing].
    change (pub_detections (start_processing (arm msg s)))
      with (pub_detections (arm msg s)).
    rewrite Hpub. lia.
  - pose proof (process_and_publish_frame parameters
                  (start_processing (arm msg s))) as Hfr.
    rewrite E in Hfr. cbn [fst snd] in Hfr.
    destruct Hfr as (_ & _ & Hcf' & Hr).
    destruct (Hr e eq_refl) as (Htr' & _ & Hpub').
    cbn [snd]. unfold pending at 1. rewrite Htr', Hcf', Hpub'.
    cbn. rewrite Htr, Hpub. lia.
Qed.

Lemma publish_budget_run {detector : LEDDetector}
  (parameters : Parameters) (msgs : list CompressedImage) :
  forall s : State,
    (2 * List.length (pub_detections (run parameters msgs s))
     + pending (run parameters msgs s)
     <= 2 * List.length (pub_detections s) + pending s
        + List.length msgs)%nat.
Proof.
  induction msgs as [|m msgs IH]; intro s; [cbn; lia|].
  rewrite run_cons. specialize (IH (snd (deliver parameters m s))).
  pose proof (publish_budget_deliver parameters m s).
  cbn [List.length]. lia.
Qed.

(** X8: published detections are never removed or changed, a delivery
    publishes at most one detection, and since start-up the node has
    published at most one detection per two delivered frames. *)
Theorem publications_bounded_by_frames
  (detector : LEDDetector) (parameters : Parameters)
  (msgs : list CompressedImage) :
  (forall s, exists l,
     pub_detections (run parameters msgs s) = pub_detections s ++ l /\
     (List.length l <= List.length msgs)%nat) /\
  (2 * List.length (pub_detections (run parameters msgs init))
   <= List.length msgs)%nat.
Proof.
  split.
  - intro s.
    destruct (@run_control detector parameters msgs s s eq_refl)
      as (_ & l & Hl & _).
    exists l. split; [exact Hl|].
    pose proof (publish_budget_run parameters msgs s) as Hb.
    rewrite Hl, length_app in Hb.
    pose proof (pending_le_1 s). 
    assert (Hall : forall n (l0 : list CompressedImage) s0 l1,
               pub_detections (run parameters l0 s0)
               = pub_detections s0 ++ l1 ->
               List.length l0 = n ->
               (List.length l1 <= n)%nat).
    { clear. intro n. induction n as [|n IHn]; intros l0 s0 l1 H0 Hn.
      - destruct l0; [|discriminate]. cbn in H0.
        rewrite <- (app_nil_r (pub_detections s0)) in H0 at 1.
        apply app_inv_head in H0. subst l1. cbn. lia.
      - destruct l0 as [|m0 l0]; [discriminate|]. injection Hn as Hn.
        rewrite run_cons in H0.
        destruct (@deliver_control detector parameters m0 s0 s0 eq_refl)
          as (_ & _ & la & La & _).
        destruct (@run_control detector parameters l0
                    (snd (deliver parameters m0 s0))
                    (snd (deliver parameters m0 s0)) eq_refl)
          as (_ & lb & Lb & _).
        pose proof (publish_budget_deliver parameters m0 s0) as Hb.
        rewrite La, length_app in Hb.
        pose proof (pending_le_1 s0).
        rewrite Lb, La, <- app_assoc in H0.
        apply app_inv_head in H0. subst l1. rewrite length_app.
        specialize (IHn l0 (snd (deliver parameters m0 s0)) lb Lb Hn).
        lia. }
    apply (Hall (List.length msgs) msgs s l Hl eq_refl).
  - pose proof (publish_budget_run parameters msgs init) as Hb.
    cbn in Hb. lia.
Qed.

(** ** Frames of one resolution *)

Lemma same_shape_deliver {detector : LEDDetector} (parameters : Parameters)
  (h w : nat) (msg : CompressedImage) (s : State) :
  shape2 (gray msg) = (h, w) ->
  Forall (fun f => shape2 (rgb f) = (h, w)) (data s) ->
  Forall (fun f => shape2 (rgb f) = (h, w))
         (data (snd (deliver parameters msg s))).
Proof.
  intros Hm Hall. rewrite deliver_eq.
  destruct (sub_cam s); [|exact Hall].
  rewrite camera_callback_eq. cbv zeta.
  assert (Harm : Forall (fun f => shape2 (rgb f) = (h, w))
                        (data (arm msg s))).
  { unfold arm. destruct (trigger s); [constructor|].
    destruct (capture_finished s); exact Hall. }
  destruct (Qltb 0 _); [|exact Harm].
  destruct (Qltb _ (capture_time parameters)).
  - cbn. apply Forall_app. split; [exact Harm|].
    constructor; [exact Hm|constructor].
  - destruct (capture_finished (arm msg s)); cbn [negb]; [exact Harm|].
    pose proof (process_and_publish_frame parameters
                  (start_processing (arm msg s))) as (Hd & _).
    rewrite Hd. exact Harm.
Qed.

Lemma same_shape_stackable (h w : nat) (d : list Frame) :
  d <> [] ->
  Forall (fun f => shape2 (rgb f) = (h, w)) d ->
  stackable d = true /\
  exists v0 d', d = v0 :: d' /\ shape2 (rgb v0) = (h, w).
Proof.
  intros Hne Hall. destruct d as [|v0 d']; [contradiction|].
  inversion Hall as [|? ? H0 _]; subst.
  split; [|exists v0, d'; auto].
  unfold stackable. rewrite H0. cbn [fst snd].
  apply forallb_forall. intros v Hin.
  rewrite Forall_forall in Hall. specialize (Hall v Hin).
  unfold broadcastable. rewrite Hall, !Nat.eqb_refl. reflexivity.
Qed.

(** X9: when all delivered images have the same height and width, the
    window of every state the node reaches is empty or stacks without a
    [ValueError], into a volume of that height and width with one plane per
    frame. *)
Theorem fixed_resolution_window_stacks
  (detector : LEDDetector) (parameters : Parameters) (h w : nat)
  (msgs : list CompressedImage) :
  Forall (fun m => shape2 (gray m) = (h, w)) msgs ->
  let s := run parameters msgs init in
  data s = [] \/
  exists images,
    stack_images (data s) = Ok images /\
    shape3 images = (h, w, List.length (data s)).
Proof.
  intros Hall s.
  assert (Hd : Forall (fun f => shape2 (rgb f) = (h, w)) (data s)).
  { unfold s. clear s.
    assert (Hgen : forall s0,
               Forall (fun f => shape2 (rgb f) = (h, w)) (data s0) ->
               Forall (fun f => shape2 (rgb f) = (h, w))
                      (data (run parameters msgs s0))).
    { induction Hall as [|m msgs Hm _ IH]; intros s0 H0; [exact H0|].
      rewrite run_cons. apply IH, same_shape_deliver; assumption. }
    apply Hgen. constructor. }
  destruct (data s) as [|v0 d'] eqn:Ed; [left; reflexivity|right].
  assert (Hne : v0 :: d' <> []) by discriminate.
  destruct (same_shape_stackable Hne Hd) as (Hst & v & d & Hvd & Hv).
  inversion Hvd; subst v d.
  rewrite stack_images_cons.
  pose proof (fill_images_spec (fst (shape2 (rgb v0)))
                (snd (shape2 (rgb v0))) (v0 :: d') 0
                (zeros3 (fst (shape2 (rgb v0))) (snd (shape2 (rgb v0)))
                        (List.length (v0 :: d')))) as Hspec.
  unfold stackable in Hst. rewrite Hst in Hspec.
  destruct Hspec as (images & Hf & Hs & _).
  exists images. split; [exact Hf|].
  rewrite Hs, Hv. reflexivity.
Qed.

Lemma fixed_resolution_window_stacks_witness :
  exists images,
    stack_images
      (data (run (detector := Sample.detector) (Sample.params 1 0)
               [Sample.message 10 1; Sample.message (21 # 2) 2] init))
    = Ok images /\
    shape3 images = (4, 4, 2)%nat.
Proof.
  destruct (@fixed_resolution_window_stacks Sample.detector
              (Sample.params 1 0) 4 4
              [Sample.message 10 1; Sample.message (21 # 2) 2])
    as [Hempty|Hst].
  - repeat constructor.
  - discriminate Hempty.
  - exact Hst.
Defined.

(** ** More on cropping *)

(** X11: a box whose row start is slightly negative is not cut at the top
    of the image: the start index [floor(H*h0)], being negative, counts
    from the bottom, so that the crop starts at row [H + floor(H*h0)]. *)
Theorem crop_image_negative_start_wraps
  (images : ndarray3) (c : crop_norm) (H W D : nat) :
  shape3 images = (H, W, D) ->
  - Z.of_nat H <= crop_h_start H c < 0 ->
  0 <= crop_h_end H c <= Z.of_nat H ->
  0 <= crop_w_start W c <= Z.of_nat W ->
  0 <= crop_w_end W c <= Z.of_nat W ->
  exists v,
    crop_image images c = Ok v /\
    shape3 v
    = (Z.to_nat (crop_h_end H c - (Z.of_nat H + crop_h_start H c)),
       Z.to_nat (crop_w_end W c - crop_w_start W c), D) /\
    forall i j k,
      at3 v i j k =
      at3 images (Z.to_nat (Z.of_nat H + crop_h_start H c) + i)%nat
                 (Z.to_nat (crop_w_start W c) + j)%nat k.
Proof.
  intros Hs Bhs Bhe Bws Bwe.
  eexists. split; [apply (crop_image_eq images c Hs)|].
  rewrite (slice_indices_in_range W Bws Bwe).
  assert (Hrow : slice_indices H (crop_h_start H c) (crop_h_end H c)
                 = (Z.to_nat (Z.of_nat H + crop_h_start H c),
                    Z.to_nat (crop_h_end H c
                              - (Z.of_nat H + crop_h_start H c)))).
  { unfold slice_indices.
    rewrite (adjust_index_in_range Bhe).
    unfold adjust_index.
    destruct (Z.ltb_spec (crop_h_start H c) 0); [|lia].
    replace (Z.max 0 (crop_h_start H c + Z.of_nat H))
      with (Z.of_nat H + crop_h_start H c) by lia.
    reflexivity. }
  rewrite Hrow. cbn [fst snd shape3 at3]. split; reflexivity.
Qed.

Lemma crop_image_negative_start_wraps_witness :
  exists v,
    crop_image (Sample.volume 10 8 3) ((- (1 # 20), 1 # 2), (0, 1))%Q = Ok v /\
    shape3 v = (0, 8, 3)%nat.
Proof.
  destruct (@crop_image_negative_start_wraps (Sample.volume 10 8 3)
              ((- (1 # 20), 1 # 2), (0, 1))%Q 10 8 3 eq_refl)
    as (v & Hv & Hshape & _).
  - vm_compute. split; [intro H; discriminate H | reflexivity].
  - vm_compute. split; intro H; discriminate H.
  - vm_compute. split; intro H; discriminate H.
  - vm_compute. split; intro H; discriminate H.
  - exists v. split; [exact Hv | exact Hshape].
Defined.

(** X12: the plane [img[:, :, -1]] drawn in verbose mode exists for every
    crop of a stacked window, and it is the crop of the plane of the last
    captured frame. *)
Theorem last_plane_of_crop_is_last_frame
  (d : list Frame) (images v : ndarray3) (c : crop_norm) :
  stack_images d = Ok images ->
  crop_image images c = Ok v ->
  exists p,
    last_plane v = Ok p /\
    shape2 p = fst (shape3 v) /\
    forall i j, at2 p i j = at3 v i j (List.length d - 1)%nat.
Proof.
  intros Hst Hc.
  destruct d as [|v0 d']; [discriminate|].
  rewrite stack_images_cons in Hst.
  pose proof (fill_images_spec (fst (shape2 (rgb v0)))
                (snd (shape2 (rgb v0))) (v0 :: d') 0
                (zeros3 (fst (shape2 (rgb v0))) (snd (shape2 (rgb v0)))
                        (List.length (v0 :: d')))) as Hspec.
  destruct (forallb _ (v0 :: d')); [|congruence].
  destruct Hspec as (images' & Hf & Hs & _).
  rewrite Hf in Hst. inversion Hst; subst images'.
  cbn [shape3 zeros3] in Hs.
  rewrite (crop_image_eq images c Hs) in Hc. inversion Hc; subst v.
  unfold last_plane. cbn [shape3 List.length].
  eexists. split; [reflexivity|]. cbn [shape2 at2 at3 fst].
  split; [reflexivity|].
  intros i j.
  replace (S (List.length d') - 1)%nat with (List.length d') by lia.
  reflexivity.
Qed.

Lemma last_plane_of_crop_is_last_frame_witness :
  exists images v p,
    stack_images [captured_frame (Sample.message 1 10);
                  captured_frame (Sample.message 2 20)] = Ok images /\
    crop_image images ((0, 1 # 2), (0, 1 # 2))%Q = Ok v /\
    last_plane v = Ok p /\
    at2 p 1 1 = 235.
Proof.
  destruct (@last_plane_of_crop_is_last_frame
              [captured_frame (Sample.message 1 10);
               captured_frame (Sample.message 2 20)]
              _ _ ((0, 1 # 2), (0, 1 # 2))%Q eq_refl eq_refl)
    as (p & Hp & _ & Hat).
  eexists. eexists. exists p.
  split; [reflexivity|]. split; [reflexivity|]. split; [exact Hp|].
  rewrite Hat. reflexivity.
Defined.

(** * Properties of the log utilities *)

(** ** The order in which URLs are tried *)

Lemma priority_cases (x : string) :
  (EasyLogs.priority x = 0%nat /\ EasyLogs.contains "8080" x = true) \/
  (EasyLogs.priority x = 1%nat /\ EasyLogs.contains "8080" x = false).
Proof.
  unfold EasyLogs.priority.
  destruct (EasyLogs.contains "8080" x); auto.
Qed.

Lemma insert_by_priority_partition (x : string) (a b : list string) :
  Forall (fun y => EasyLogs.contains "8080" y = true) a ->
  Forall (fun y => EasyLogs.contains "8080" y = false) b ->
  EasyLogs.insert_by EasyLogs.priority x (a ++ b) =
  if EasyLogs.contains "8080" x then x :: a ++ b else a ++ x :: b.
Proof.
  intros Ha Hb.
  destruct (EasyLogs.contains "8080" x) eqn:Ex.
  - destruct (a ++ b) as [|y l]; [reflexivity|].
    cbn. unfold EasyLogs.priority at 1. rewrite Ex. reflexivity.
  - induction Ha as [|y a Hy Ha IH].
    + destruct Hb as [|y b Hy Hb]; [reflexivity|].
      cbn. unfold EasyLogs.priority. rewrite Ex, Hy. reflexivity.
    + cbn. unfold EasyLogs.priority at 1 2. rewrite Ex, Hy.
      cbn. rewrite IH. reflexivity.
Qed.

Lemma sort_by_priority_partition (l : list string) :
  EasyLogs.sort_by EasyLogs.priority l =
  filter (EasyLogs.contains "8080") l
  ++ filter (fun x => negb (EasyLogs.contains "8080" x)) l.
Proof.
  induction l as [|x l IH]; [reflexivity|].
  unfold EasyLogs.sort_by in *. cbn [fold_right filter]. rewrite IH.
  rewrite insert_by_priority_partition.
  - destruct (EasyLogs.contains "8080" x); reflexivity.
  - apply Forall_forall. intros y Hy. apply filter_In in Hy. tauto.
  - apply Forall_forall. intros y Hy. apply filter_In in Hy.
    destruct Hy as [_ Hy]. now apply negb_true_iff in Hy.
Qed.

(** X13: the URLs tried for a download are exactly the URLs of the resource
    that start with "http"; those containing "8080" come first, and within
    each of the two groups the order of the resource is kept. *)
Theorem candidates_8080_first (urls : list string) :
  EasyLogs.candidates urls =
  filter (EasyLogs.contains "8080") (filter (String.prefix "http") urls)
  ++ filter (fun x => negb (EasyLogs.contains "8080" x))
            (filter (String.prefix "http") urls).
Proof.
  unfold EasyLogs.candidates. apply sort_by_priority_partition.
Qed.

(** ** The download loop *)

Section EasyLogsFacts.

Variable from_yaml : EasyLogs.ResourceYaml -> EasyLogs.outcome EasyLogs.DTR.
Variable downloads : string.
Variable fetch : EasyLogs.World -> string -> string -> bool.
Variable create_file_uri : string -> string.

Lemma record_attempts_fields (us : list string) :
  forall w : EasyLogs.World,
    EasyLogs.basename2filename (EasyLogs.record_attempts us w)
    = EasyLogs.basename2filename w /\
    EasyLogs.existing (EasyLogs.record_attempts us w) = EasyLogs.existing w /\
    EasyLogs.attempts (EasyLogs.record_attempts us w)
    = EasyLogs.attempts w ++ us /\
    EasyLogs.invalidations (EasyLogs.record_attempts us w)
    = EasyLogs.invalidations w.
Proof.
  induction us as [|u us IH]; intro w.
  - cbn. rewrite app_nil_r. auto.
  - cbn [EasyLogs.record_attempts fold_left].
    destruct (IH (EasyLogs.record_attempt u w)) as (H1 & H2 & H3 & H4).
    unfold EasyLogs.record_attempts in *. rewrite H1, H2, H3, H4.
    cbn. rewrite <- app_assoc. auto.
Qed.

Lemma try_downloads_first (filename : string) (pre : list string) :
  forall (w : EasyLogs.World) (url : string) (post : list string),
    (forall pre1 u pre2,
       pre = pre1 ++ u :: pre2 ->
       fetch (EasyLogs.record_attempts pre1 w) u filename = false) ->
    fetch (EasyLogs.record_attempts pre w) url filename = true ->
    EasyLogs.try_downloads fetch filename (pre ++ url :: post) w
    = (true, EasyLogs.record_attempts (pre ++ [url]) w).
Proof.
  induction pre as [|u pre IH]; intros w url post Hfail Hok.
  - cbn in *. rewrite Hok. reflexivity.
  - cbn [app EasyLogs.try_downloads].
    pose proof (Hfail [] u pre eq_refl) as H0. cbn in H0. rewrite H0.
    rewrite (IH (EasyLogs.record_attempt u w) url post);
      [reflexivity| |exact Hok].
    intros pre1 u' pre2 Hp.
    apply (Hfail (u :: pre1) u' pre2). now rewrite Hp.
Qed.

Lemma try_downloads_none (filename : string) (use : list string) :
  forall w : EasyLogs.World,
    (forall pre1 u pre2,
       use = pre1 ++ u :: pre2 ->
       fetch (EasyLogs.record_attempts pre1 w) u filename = false) ->
    EasyLogs.try_downloads fetch filename use w
    = (false, EasyLogs.record_attempts use w).
Proof.
  induction use as [|u use IH]; intros w Hfail; [reflexivity|].
  cbn [EasyLogs.try_downloads].
  pose proof (Hfail [] u use eq_refl) as H0. cbn in H0. rewrite H0.
  rewrite (IH (EasyLogs.record_attempt u w)); [reflexivity|].
  intros pre1 u' pre2 Hp.
  apply (Hfail (u :: pre1) u' pre2). now rewrite Hp.
Qed.

Lemma try_downloads_inv (filename : string) (use : list string) :
  forall w w' : EasyLogs.World,
    EasyLogs.try_downloads fetch filename use w = (true, w') ->
    exists pre url post,
      use = pre ++ url :: post /\
      (forall pre1 u pre2,
         pre = pre1 ++ u :: pre2 ->
         fetch (EasyLogs.record_attempts pre1 w) u filename = false) /\
      fetch (EasyLogs.record_attempts pre w) url filename = true /\
      w' = EasyLogs.record_attempts (pre ++ [url]) w.
Proof.
  induction use as [|u use IH]; intros w w' H; [discriminate|].
  cbn [EasyLogs.try_downloads] in H.
  destruct (fetch w u filename) eqn:Ef.
  - inversion H; subst. exists [], u, use.
    split; [reflexivity|]. split.
    + intros pre1 u' pre2 Hp. destruct pre1; discriminate Hp.
    + split; [exact Ef|reflexivity].
  - destruct (IH _ _ H) as (pre & url & post & Huse & Hfail & Hok & Hw').
    exists (u :: pre), url, post.
    split; [rewrite Huse; reflexivity|]. split.
    + intros pre1 u' pre2 Hp. destruct pre1 as [|a pre1].
      * inversion Hp; subst. exact Ef.
      * inversion Hp; subst. apply (Hfail pre1 u' pre2 eq_refl).
    + split; [exact Hok|exact Hw'].
Qed.

End EasyLogsFacts.

(** ** Locating or downloading a log *)

(** X14: when [get_log_if_not_exists] returns a path, the resource is
    described in the log and the path is the one the local database maps
    its name to, or else the resource's name joined to the downloads
    directory.  Nothing is downloaded when the database knows the name or
    the file exists; otherwise the candidates were tried in order up to the
    first success (each candidate before it was tried and failed, it was
    fetched itself, and none after it was tried) and the cache was
    invalidated once. *)
Theorem get_log_if_not_exists_returns
  (from_yaml : EasyLogs.ResourceYaml -> EasyLogs.outcome EasyLogs.DTR)
  (downloads : string) (fetch : EasyLogs.World -> string -> string -> bool)
  (log : EasyLogs.PhysicalLog) (resource_name : string)
  (w w' : EasyLogs.World) (filename : string) :
  EasyLogs.get_log_if_not_exists from_yaml downloads fetch log resource_name w
  = (EasyLogs.Return filename, w') ->
  exists dtr_yaml dtr,
    EasyLogs.lookup resource_name (EasyLogs.resources log) = Some dtr_yaml /\
    from_yaml dtr_yaml = EasyLogs.Return dtr /\
    ((EasyLogs.lookup (EasyLogs.name dtr) (EasyLogs.basename2filename w)
      = Some filename /\ w' = w) \/
     (EasyLogs.lookup (EasyLogs.name dtr) (EasyLogs.basename2filename w)
      = None /\
      filename = EasyLogs.path_join downloads (EasyLogs.name dtr) /\
      ((EasyLogs.path_exists w filename = true /\ w' = w) \/
       (EasyLogs.path_exists w filename = false /\
        EasyLogs.basename2filename w' = EasyLogs.basename2filename w /\
        EasyLogs.existing w' = EasyLogs.existing w /\
        EasyLogs.invalidations w' = S (EasyLogs.invalidations w) /\
        exists pre url post,
          EasyLogs.candidates (EasyLogs.urls dtr) = pre ++ url :: post /\
          (forall pre1 u pre2,
             pre = pre1 ++ u :: pre2 ->
             fetch (EasyLogs.record_attempts pre1 w) u filename = false) /\
          fetch (EasyLogs.record_attempts pre w) url filename = true /\
          EasyLogs.attempts w' = EasyLogs.attempts w ++ pre ++ [url])))).
Proof.
  unfold EasyLogs.get_log_if_not_exists.
  destruct (EasyLogs.lookup resource_name (EasyLogs.resources log))
    as [y|]; [|discriminate].
  destruct (from_yaml y) as [dtr|e] eqn:Ey; [|discriminate].
  intro H. exists y, dtr. split; [reflexivity|]. split; [exact Ey|].
  destruct (EasyLogs.lookup (EasyLogs.name dtr) (EasyLogs.basename2filename w))
    as [f|].
  { inversion H; subst. left. auto. }
  right. split; [reflexivity|]. cbv zeta in H.
  destruct (EasyLogs.path_exists w _) eqn:Ex.
  { inversion H; subst. split; [reflexivity|]. left. auto. }
  destruct (EasyLogs.try_downloads fetch
              (EasyLogs.path_join downloads (EasyLogs.name dtr))
              (EasyLogs.candidates (EasyLogs.urls dtr)) w)
    as [[|] w1] eqn:Et; [|discriminate].
  inversion H; subst. split; [reflexivity|]. right.
  split; [exact Ex|].
  destruct (@try_downloads_inv fetch _ _ w w1 Et)
    as (pre & url & post & Huse & Hfail & Hok & ->).
  destruct (record_attempts_fields (pre ++ [url]) w) as (H1 & H2 & H3 & H4).
  cbn [EasyLogs.basename2filename EasyLogs.existing EasyLogs.invalidations
       EasyLogs.attempts EasyLogs.record_invalidation].
  rewrite H1, H2, H3, H4.
  split; [reflexivity|]. split; [reflexivity|]. split; [reflexivity|].
  exists pre, url, post. auto.
Qed.

Lemma get_log_if_not_exists_returns_witness :
  exists pre url post,
    EasyLogs.candidates ["http://a.example/x.bag"; "file:///data/x.bag";
                         "http://b.example:8080/x.bag"]%string
    = pre ++ url :: post /\
    (forall pre1 u pre2,
       pre = pre1 ++ u :: pre2 ->
       LogSample.fetch (EasyLogs.record_attempts pre1 LogSample.world) u
         "/downloads/x.bag" = false) /\
    LogSample.fetch (EasyLogs.record_attempts pre LogSample.world) url
      "/downloads/x.bag" = true.
Proof.
  destruct (@get_log_if_not_exists_returns LogSample.from_yaml "/downloads"
              LogSample.fetch LogSample.log "bag" LogSample.world _
              "/downloads/x.bag" eq_refl)
    as (y & dtr & Hy & Hd & Hcases).
  inversion Hy; subst y. inversion Hd; subst dtr.
  destruct Hcases as [[Hloc _]|(_ & _ & [[Hex _]|Hdown])].
  - discriminate Hloc.
  - discriminate Hex.
  - destruct Hdown as (_ & _ & _ & _ & pre & url & post & Hc & Hfail & Hok & _).
    exists pre, url, post. split; [exact Hc|]. split; [exact Hfail|exact Hok].
Defined.

(** X15: a resource that is neither known to the local database nor
    present in the downloads directory is downloaded from the first
    candidate URL that can be fetched: the candidates before it are tried
    and fail, those after it are not tried, the cache is invalidated once,
    and the path in the downloads directory is returned. *)
Theorem get_log_if_not_exists_downloads_first_fetchable
  (from_yaml : EasyLogs.ResourceYaml -> EasyLogs.outcome EasyLogs.DTR)
  (downloads : string) (fetch : EasyLogs.World -> string -> string -> bool)
  (log : EasyLogs.PhysicalLog) (resource_name : string) (w : EasyLogs.World)
  (dtr_yaml : EasyLogs.ResourceYaml) (dtr : EasyLogs.DTR)
  (pre : list string) (url : string) (post : list string) :
  let filename := EasyLogs.path_join downloads (EasyLogs.name dtr) in
  EasyLogs.lookup resource_name (EasyLogs.resources log) = Some dtr_yaml ->
  from_yaml dtr_yaml = EasyLogs.Return dtr ->
  EasyLogs.lookup (EasyLogs.name dtr) (EasyLogs.basename2filename w) = None ->
  EasyLogs.path_exists w filename = false ->
  EasyLogs.candidates (EasyLogs.urls dtr) = pre ++ url :: post ->
  (forall pre1 u pre2,
     pre = pre1 ++ u :: pre2 ->
     fetch (EasyLogs.record_attempts pre1 w) u filename = false) ->
  fetch (EasyLogs.record_attempts pre w) url filename = true ->
  exists w',
    EasyLogs.get_log_if_not_exists from_yaml downloads fetch log
      resource_name w
    = (EasyLogs.Return filename, w') /\
    EasyLogs.attempts w' = EasyLogs.attempts w ++ pre ++ [url] /\
    EasyLogs.invalidations w' = S (EasyLogs.invalidations w) /\
    EasyLogs.basename2filename w' = EasyLogs.basename2filename w /\
    EasyLogs.existing w' = EasyLogs.existing w.
Proof.
  intros filename Hy Hd Hloc Hex Hc Hfail Hok.
  unfold EasyLogs.get_log_if_not_exists.
  rewrite Hy, Hd, Hloc. cbv zeta. fold filename. rewrite Hex, Hc.
  rewrite (@try_downloads_first fetch filename pre w url post Hfail Hok).
  eexists. split; [reflexivity|].
  destruct (record_attempts_fields (pre ++ [url]) w) as (H1 & H2 & H3 & H4).
  cbn. rewrite H1, H2, H3, H4. auto.
Qed.

Lemma get_log_if_not_exists_downloads_first_fetchable_witness :
  exists w',
    EasyLogs.get_log_if_not_exists LogSample.from_yaml "/downloads"
      LogSample.fetch LogSample.log "bag" LogSample.world
    = (EasyLogs.Return "/downloads/x.bag"%string, w') /\
    EasyLogs.attempts w'
    = ["http://b.example:8080/x.bag"; "http://a.example/x.bag"]%string.
Proof.
  destruct (@get_log_if_not_exists_downloads_first_fetchable
              LogSample.from_yaml "/downloads" LogSample.fetch LogSample.log
              "bag" LogSample.world LogSample.bag
              {| EasyLogs.name := "x.bag";
                 EasyLogs.urls := ["http://a.example/x.bag";
                                   "file:///data/x.bag";
                                   "http://b.example:8080/x.bag"]%string |}
              ["http://b.example:8080/x.bag"%string]
              "http://a.example/x.bag" [])
    as (w' & Hget & Hatt & _).
  - reflexivity.
  - reflexivity.
  - reflexivity.
  - reflexivity.
  - reflexivity.
  - intros pre1 u pre2 Hp.
    destruct pre1 as [|a pre1].
    + inversion Hp; subst. reflexivity.
    + inversion Hp as [[Ha Hrest]]. destruct pre1; discriminate Hrest.
  - reflexivity.
  - exists w'. split; [exact Hget | exact Hatt].
Defined.

(** X16: when no candidate URL can be fetched, in particular when the
    resource has no URL starting with "http", [get_log_if_not_exists]
    raises "Could not download any file" after trying every candidate in
    order, and the cache is not invalidated. *)
Theorem get_log_if_not_exists_cannot_download
  (from_yaml : EasyLogs.ResourceYaml -> EasyLogs.outcome EasyLogs.DTR)
  (downloads : string) (fetch : EasyLogs.World -> string -> string -> bool)
  (log : EasyLogs.PhysicalLog) (resource_name : string) (w : EasyLogs.World)
  (dtr_yaml : EasyLogs.ResourceYaml) (dtr : EasyLogs.DTR) :
  let filename := EasyLogs.path_join downloads (EasyLogs.name dtr) in
  EasyLogs.lookup resource_name (EasyLogs.resources log) = Some dtr_yaml ->
  from_yaml dtr_yaml = EasyLogs.Return dtr ->
  EasyLogs.lookup (EasyLogs.name dtr) (EasyLogs.basename2filename w) = None ->
  EasyLogs.path_exists w filename = false ->
  (forall pre1 u pre2,
     EasyLogs.candidates (EasyLogs.urls dtr) = pre1 ++ u :: pre2 ->
     fetch (EasyLogs.record_attempts pre1 w) u filename = false) ->
  exists w',
    EasyLogs.get_log_if_not_exists from_yaml downloads fetch log
      resource_name w
    = (EasyLogs.Throw (EasyLogs.Exception "Could not download any file"),
       w') /\
    EasyLogs.attempts w'
    = EasyLogs.attempts w ++ EasyLogs.candidates (EasyLogs.urls dtr) /\
    EasyLogs.invalidations w' = EasyLogs.invalidations w /\
    EasyLogs.basename2filename w' = EasyLogs.basename2filename w /\
    EasyLogs.existing w' = EasyLogs.existing w.
Proof.
  intros filename Hy Hd Hloc Hex Hfail.
  unfold EasyLogs.get_log_if_not_exists.
  rewrite Hy, Hd, Hloc. cbv zeta. fold filename. rewrite Hex.
  rewrite (@try_downloads_none fetch filename _ w Hfail).
  eexists. split; [reflexivity|].
  destruct (record_attempts_fields (EasyLogs.candidates (EasyLogs.urls dtr)) w)
    as (H1 & H2 & H3 & H4).
  rewrite H1, H2, H3, H4. auto.
Qed.

Lemma get_log_if_not_exists_cannot_download_witness :
  exists w',
    EasyLogs.get_log_if_not_exists LogSample.from_yaml "/downloads"
      LogSample.fetch_none LogSample.log "bag" LogSample.world
    = (EasyLogs.Throw (EasyLogs.Exception "Could not download any file"),
       w') /\
    EasyLogs.invalidations w' = 0%nat.
Proof.
  destruct (@get_log_if_not_exists_cannot_download
              LogSample.from_yaml "/downloads" LogSample.fetch_none
              LogSample.log "bag" LogSample.world LogSample.bag
              {| EasyLogs.name := "x.bag";
                 EasyLogs.urls := ["http://a.example/x.bag";
                                   "file:///data/x.bag";
                                   "http://b.example:8080/x.bag"]%string |})
    as (w' & Hget & _ & Hinv & _).
  - reflexivity.
  - reflexivity.
  - reflexivity.
  - reflexivity.
  - reflexivity.
  - exists w'. split; [exact Hget | exact Hinv].
Defined.

(** ** Recording the local copy in the log *)

Lemma lookup_replace_same (A : Type) (k : string) (v v0 : A)
  (d : list (string * A)) :
  EasyLogs.lookup k d = Some v0 ->
  EasyLogs.lookup k (EasyLogs.replace k v d) = Some v.
Proof.
  induction d as [|[k' v'] d IH]; [discriminate|].
  cbn. destruct (String.eqb_spec k k') as [->|Hne]; cbn.
  - now rewrite String.eqb_refl.
  - intro H. destruct (String.eqb_spec k k'); [contradiction|]. auto.
Qed.

Lemma lookup_replace_other (A : Type) (k k0 : string) (v : A)
  (d : list (string * A)) :
  k0 <> k ->
  EasyLogs.lookup k0 (EasyLogs.replace k v d) = EasyLogs.lookup k0 d.
Proof.
  intro Hne. induction d as [|[k' v'] d IH]; [reflexivity|].
  cbn. destruct (String.eqb_spec k k') as [->|Hk]; cbn.
  - destruct (String.eqb_spec k0 k'); [contradiction|reflexivity].
  - rewrite IH. reflexivity.
Qed.

Lemma replace_keys (A : Type) (k : string) (v : A) (d : list (string * A)) :
  map fst (EasyLogs.replace k v d) = map fst d.
Proof.
  induction d as [|[k' v'] d IH]; [reflexivity|].
  cbn. destruct (k =? k')%string; cbn; [reflexivity|]. now rewrite IH.
Qed.

(** X17: when [download_if_necessary] returns, the log it returns has the
    same name and the same resource names; its "bag" resource lists the
    previous URLs followed by the file URI of the path found by
    [get_log_if_not_exists], with its other entries unchanged, and every
    other resource is as before.  An exception of [get_log_if_not_exists]
    is passed on. *)
Theorem download_if_necessary_appends_local_uri
  (from_yaml : EasyLogs.ResourceYaml -> EasyLogs.outcome EasyLogs.DTR)
  (downloads : string) (fetch : EasyLogs.World -> string -> string -> bool)
  (create_file_uri : string -> string)
  (log : EasyLogs.PhysicalLog) (w : EasyLogs.World) :
  match EasyLogs.download_if_necessary from_yaml downloads fetch
          create_file_uri log w with
  | (EasyLogs.Return log', w') =>
      exists filename r us,
        EasyLogs.get_log_if_not_exists from_yaml downloads fetch log "bag" w
        = (EasyLogs.Return filename, w') /\
        EasyLogs.lookup "bag" (EasyLogs.resources log) = Some r /\
        EasyLogs.yaml_urls r = Some us /\
        EasyLogs.lookup "bag" (EasyLogs.resources log')
        = Some {| EasyLogs.yaml_urls := Some (us ++ [create_file_uri filename]);
                  EasyLogs.yaml_entries := EasyLogs.yaml_entries r |} /\
        (forall k, k <> "bag"%string ->
           EasyLogs.lookup k (EasyLogs.resources log')
           = EasyLogs.lookup k (EasyLogs.resources log)) /\
        map fst (EasyLogs.resources log') = map fst (EasyLogs.resources log) /\
        EasyLogs.log_name log' = EasyLogs.log_name log
  | (EasyLogs.Throw e, w') =>
      EasyLogs.get_log_if_not_exists from_yaml downloads fetch log "bag" w
      = (EasyLogs.Throw e, w') \/
      (e = EasyLogs.KeyError "urls" /\
       exists filename r,
         EasyLogs.get_log_if_not_exists from_yaml downloads fetch log "bag" w
         = (EasyLogs.Return filename, w') /\
         EasyLogs.lookup "bag" (EasyLogs.resources log) = Some r /\
         EasyLogs.yaml_urls r = None)
  end.
Proof.
  unfold EasyLogs.download_if_necessary. cbv zeta.
  destruct (EasyLogs.get_log_if_not_exists from_yaml downloads fetch log
              "bag" w) as [[filename|e] w'] eqn:Eget.
  2:{ left. reflexivity. }
  assert (Hbag : exists r,
             EasyLogs.lookup "bag" (EasyLogs.resources log) = Some r).
  { revert Eget. unfold EasyLogs.get_log_if_not_exists.
    destruct (EasyLogs.lookup "bag" (EasyLogs.resources log)) as [r|];
      [eauto|discriminate]. }
  destruct Hbag as [r Hr]. rewrite Hr.
  destruct (EasyLogs.yaml_urls r) as [us|] eqn:Eu.
  - exists filename, r, us.
    split; [reflexivity|]. split; [reflexivity|]. split; [exact Eu|].
    cbn [EasyLogs.resources EasyLogs.log_name].
    split; [apply (lookup_replace_same _ _ _ Hr)|].
    split; [intros k Hk; apply lookup_replace_other, Hk|].
    split; [apply replace_keys|reflexivity].
  - right. split; [reflexivity|].
    exists filename, r. split; [reflexivity|].
    split; first [reflexivity | exact Eu].
Qed.

(** ** The log database of an application *)

Lemma call_all_cached (DB : Type)
  (get_easy_logs_db2 : bool -> bool -> bool -> DB)
  (calls : list EasyLogs.Options) :
  forall (a : EasyLogs.App DB) (db : DB),
    EasyLogs._db a = Some db ->
    EasyLogs.call_all get_easy_logs_db2 calls a = a.
Proof.
  induction calls as [|o calls IH]; intros a db Ha; [reflexivity|].
  unfold EasyLogs.call_all in *. cbn [fold_left].
  replace (snd (EasyLogs.get_easy_logs_db get_easy_logs_db2 o a)) with a
    by (unfold EasyLogs.get_easy_logs_db; rewrite Ha; reflexivity).
  apply (IH a db Ha).
Qed.

(** X18: an application builds its log database once.  Whatever the number
    of calls of [get_easy_logs_db] and the options in force at each of them,
    [get_easy_logs_db2] is called once, with the options of the first call;
    the candidate cloud database is written at most once, if the first call
    asks for it; and every call returns the database built by the first. *)
Theorem get_easy_logs_db_builds_once (DB : Type)
  (get_easy_logs_db2 : bool -> bool -> bool -> DB)
  (first : EasyLogs.Options) (later : list EasyLogs.Options)
  (o : EasyLogs.Options) :
  let db := get_easy_logs_db2 (EasyLogs.no_cloud first)
              (EasyLogs.no_local first) (EasyLogs.cache_reset first) in
  let a := EasyLogs.call_all get_easy_logs_db2 (first :: later)
             (EasyLogs.fresh DB) in
  fst (EasyLogs.get_easy_logs_db get_easy_logs_db2 first (EasyLogs.fresh DB))
  = db /\
  EasyLogs.get_easy_logs_db get_easy_logs_db2 o a = (db, a) /\
  EasyLogs.built a
  = [(EasyLogs.no_cloud first, EasyLogs.no_local first,
      EasyLogs.cache_reset first)] /\
  EasyLogs.written a
  = (if EasyLogs.write_candidate_cloud first then [db] else []).
Proof.
  intros db a.
  assert (Ha : a = snd (EasyLogs.get_easy_logs_db get_easy_logs_db2 first
                          (EasyLogs.fresh DB))).
  { unfold a, EasyLogs.call_all. cbn [fold_left].
    apply (@call_all_cached DB get_easy_logs_db2 later _ db). reflexivity. }
  split; [reflexivity|].
  rewrite Ha. cbn.
  split; [reflexivity|]. split; [reflexivity|].
  destruct (EasyLogs.write_candidate_cloud first); reflexivity.
Qed.
